(** * The screening engine of the ASX visualizer

    A shallow embedding of the filter panel ([FilterPanel.tsx]), the rating
    classifier of the shared types ([getRatingLabel]), the column registry
    ([columns.tsx]), the column toggle menu ([ColumnToggle.tsx]) and the
    initial table state ([DataTable.tsx]), followed by the properties the
    specification states about them.  Sorting and pagination are delegated
    by [DataTable] to the table library, which is not part of the sources;
    the defaults of the library that [DataTable] relies on are transcribed
    and marked as such.

    Numbers.  A TypeScript [number] is a binary64 value.  It is modelled by
    the rational it denotes, in canonical form ([Qc]); [number | null] is
    [option Qc].  The records come from a JSON snapshot and the bounds from
    numeric inputs, so every number is finite.  Comparisons are exact; a
    decimal literal denotes the nearest binary64 value and the one product
    of the code, a bound times [1_000_000_000], is rounded to the nearest
    binary64 value ([fl], ties to even).

    Strings are [string]; [string | null] is [option string]; [===] on
    strings is [String.eqb]. *)

From stdpp Require Import gmap strings list sorting.
From Stdlib Require Import QArith Qcanon Lqa Ascii Qround Qabs.

Local Open Scope Qc_scope.

(** ** Shared types ([Stock], [TechnicalRating]) *)

Module Stock.
(** The fields of [interface Stock] that the screening code reads.  The
    remaining metrics have the same type [number | null] and are reached
    through an accessor function [Stock.t -> option Qc]. *)
Record t : Type := mk {
  symbol : string;
  sector : option string;
  industry : option string;
  market_cap_basic : option Qc;
  RSI : option Qc;
  change : option Qc;
  Recommend_All : option Qc
}.
End Stock.

Inductive TechnicalRating : Type :=
  | StrongBuy   (* "Strong Buy" *)
  | Buy         (* "Buy" *)
  | Neutral     (* "Neutral" *)
  | Sell        (* "Sell" *)
  | StrongSell. (* "Strong Sell" *)

(** [a >= b] on two numbers. *)
Definition geb (a b : Qc) : bool := bool_decide (b ≤ a).
(** [a < b] and [a > b] on two numbers. *)
Definition ltb (a b : Qc) : bool := bool_decide (a < b).
Definition gtb (a b : Qc) : bool := bool_decide (b < a).

(** ** Rounding to binary64 *)

(** [floor(log2 q)] for a positive rational. *)
Definition floorLog2 (q : Q) : Z :=
  let k := (Z.log2 (Qnum q) - Z.log2 (Zpos (Qden q)))%Z in
  if Qle_bool (Qpower 2 k) q then k else (k - 1)%Z.

(** The nearest integer, a tie going to the even one. *)
Definition roundHalfEven (s : Q) : Z :=
  let f := Qfloor s in
  match Qcompare (s - inject_Z f) (1 # 2) with
  | Lt => f
  | Gt => (f + 1)%Z
  | Eq => if Z.even f then f else (f + 1)%Z
  end.

(** The binary64 value nearest to a rational: 53 significant bits, the
    last bit no finer than 2^-1074.  A result of magnitude 2^1024 or more
    stands for the infinity of that sign: it compares with every finite
    binary64 value as the infinity does. *)
Definition round64 (q : Q) : Q :=
  match Qnum q with
  | Z0 => 0%Q
  | _ =>
      let a := Qabs q in
      let e := Z.max (-1074) (floorLog2 a - 52) in
      let r := (inject_Z (roundHalfEven (a / Qpower 2 e)) * Qpower 2 e)%Q in
      if Qlt_le_dec q 0 then (- r)%Q else r
  end.

Definition fl (x : Qc) : Qc := Q2Qc (round64 x).

(** [a * b] on two numbers. *)
Definition fmul (a b : Qc) : Qc := fl (a * b).

(** A decimal literal of the source: the binary64 value nearest to it. *)
Definition dec (q : Q) : Qc := fl (Q2Qc q).

(** [getRatingLabel]: a chain of early returns. *)
Definition getRatingLabel (rating : option Qc) : option TechnicalRating :=
  match rating with
  | None => None
  | Some rating =>
      if geb rating (dec 0.5) then Some StrongBuy
      else if geb rating (dec 0.1) then Some Buy
      else if geb rating (dec (-0.1)) then Some Neutral
      else if geb rating (dec (-0.5)) then Some Sell
      else Some StrongSell
  end.

(** ** The filter panel *)

Module FilterCriteria.
Record t : Type := mk {
  sector : string;
  industry : string;
  marketCapMin : option Qc;
  marketCapMax : option Qc;
  rsiMin : option Qc;
  rsiMax : option Qc;
  changeMin : option Qc;
  changeMax : option Qc
}.

(** [keyof FilterCriteria] and the type [FilterCriteria[K]] of its values. *)
Inductive Key : Type :=
  | Ksector | Kindustry
  | KmarketCapMin | KmarketCapMax
  | KrsiMin | KrsiMax
  | KchangeMin | KchangeMax.

Definition Value (key : Key) : Type :=
  match key with
  | Ksector | Kindustry => string
  | _ => option Qc
  end.

(** The object spread [{ ...filters, [key]: value }]. *)
Definition spread (filters : t) (key : Key) : Value key -> t :=
  match key return Value key -> t with
  | Ksector => fun v =>
      mk v (industry filters) (marketCapMin filters) (marketCapMax filters)
         (rsiMin filters) (rsiMax filters) (changeMin filters) (changeMax filters)
  | Kindustry => fun v =>
      mk (sector filters) v (marketCapMin filters) (marketCapMax filters)
         (rsiMin filters) (rsiMax filters) (changeMin filters) (changeMax filters)
  | KmarketCapMin => fun v =>
      mk (sector filters) (industry filters) v (marketCapMax filters)
         (rsiMin filters) (rsiMax filters) (changeMin filters) (changeMax filters)
  | KmarketCapMax => fun v =>
      mk (sector filters) (industry filters) (marketCapMin filters) v
         (rsiMin filters) (rsiMax filters) (changeMin filters) (changeMax filters)
  | KrsiMin => fun v =>
      mk (sector filters) (industry filters) (marketCapMin filters) (marketCapMax filters)
         v (rsiMax filters) (changeMin filters) (changeMax filters)
  | KrsiMax => fun v =>
      mk (sector filters) (industry filters) (marketCapMin filters) (marketCapMax filters)
         (rsiMin filters) v (changeMin filters) (changeMax filters)
  | KchangeMin => fun v =>
      mk (sector filters) (industry filters) (marketCapMin filters) (marketCapMax filters)
         (rsiMin filters) (rsiMax filters) v (changeMax filters)
  | KchangeMax => fun v =>
      mk (sector filters) (industry filters) (marketCapMin filters) (marketCapMax filters)
         (rsiMin filters) (rsiMax filters) (changeMin filters) v
  end.
End FilterCriteria.

Definition defaultFilters : FilterCriteria.t :=
  FilterCriteria.mk "Any" "Any" None None None None None None.

(** [updateFilter(key, value)]: the criteria handed to [onFilterChange],
    that is, the next value of the [filters] state. *)
Definition updateFilter (filters : FilterCriteria.t) (key : FilterCriteria.Key)
    (value : FilterCriteria.Value key) : FilterCriteria.t :=
  let newFilters := FilterCriteria.spread filters key value in
  (* Reset industry when sector changes *)
  match key return FilterCriteria.Value key -> FilterCriteria.t with
  | FilterCriteria.Ksector => fun value =>
      if negb (String.eqb value (FilterCriteria.sector filters))
      then FilterCriteria.spread newFilters FilterCriteria.Kindustry "Any"
      else newFilters
  | _ => fun _ => newFilters
  end value.

(** [resetFilters]. *)
Definition resetFilters (_ : FilterCriteria.t) : FilterCriteria.t := defaultFilters.

(** [x !== y] for [x : string | null] and [y : string]. *)
Definition strict_ne (x : option string) (y : string) : bool :=
  match x with
  | Some s => negb (String.eqb s y)
  | None => true
  end.

(** The literal [1_000_000_000]. *)
Definition billion : Qc := Qc_of_Z 1000000000.

(** The callback of [data.filter] in [applyFilters]: each [if] returns
    [false] early, the last statement returns [true]. *)
Definition keeps (filters : FilterCriteria.t) (stock : Stock.t) : bool :=
  (* Sector filter *)
  if negb (String.eqb (FilterCriteria.sector filters) "Any")
     && strict_ne (Stock.sector stock) (FilterCriteria.sector filters)
  then false else
  (* Industry filter *)
  if negb (String.eqb (FilterCriteria.industry filters) "Any")
     && strict_ne (Stock.industry stock) (FilterCriteria.industry filters)
  then false else
  (* Market cap filter (convert billions to actual value) *)
  let marketCap := Stock.market_cap_basic stock in
  if match FilterCriteria.marketCapMin filters, marketCap with
     | Some lo, Some m => ltb m (fmul lo billion)
     | _, _ => false
     end
  then false else
  if match FilterCriteria.marketCapMax filters, marketCap with
     | Some hi, Some m => gtb m (fmul hi billion)
     | _, _ => false
     end
  then false else
  (* RSI filter *)
  let rsi := Stock.RSI stock in
  if match FilterCriteria.rsiMin filters, rsi with
     | Some lo, Some r => ltb r lo
     | _, _ => false
     end
  then false else
  if match FilterCriteria.rsiMax filters, rsi with
     | Some hi, Some r => gtb r hi
     | _, _ => false
     end
  then false else
  (* Change % filter *)
  let change := Stock.change stock in
  if match FilterCriteria.changeMin filters, change with
     | Some lo, Some c => ltb c lo
     | _, _ => false
     end
  then false else
  if match FilterCriteria.changeMax filters, change with
     | Some hi, Some c => gtb c hi
     | _, _ => false
     end
  then false else
  true.

Definition applyFilters (data : list Stock.t) (filters : FilterCriteria.t) : list Stock.t :=
  List.filter (keeps filters) data.

(** ** The column registry ([columns.tsx]) *)

Module ColumnDef.
(** The options of a column definition that the visibility code reads:
    [id], [accessorKey] and [enableHiding]; an option left out is [None]. *)
Record t : Type := mk {
  id : option string;
  accessorKey : option string;
  enableHiding : option bool
}.
End ColumnDef.

(** [columns], in the order of the source.  Only the ticker column carries
    an [id] and [enableHiding: false]. *)
Definition columns : list ColumnDef.t :=
  [ ColumnDef.mk (Some "ticker") None (Some false);
    ColumnDef.mk None (Some "name") None;
    ColumnDef.mk None (Some "description") None;
    ColumnDef.mk None (Some "close") None;
    ColumnDef.mk None (Some "open") None;
    ColumnDef.mk None (Some "high") None;
    ColumnDef.mk None (Some "low") None;
    ColumnDef.mk None (Some "change") None;
    ColumnDef.mk None (Some "change_abs") None;
    ColumnDef.mk None (Some "volume") None;
    ColumnDef.mk None (Some "average_volume_10d_calc") None;
    ColumnDef.mk None (Some "average_volume_30d_calc") None;
    ColumnDef.mk None (Some "relative_volume_10d_calc") None;
    ColumnDef.mk None (Some "VWAP") None;
    ColumnDef.mk None (Some "market_cap_basic") None;
    ColumnDef.mk None (Some "price_earnings_ttm") None;
    ColumnDef.mk None (Some "price_sales_ratio") None;
    ColumnDef.mk None (Some "price_book_ratio") None;
    ColumnDef.mk None (Some "dividend_yield_recent") None;
    ColumnDef.mk None (Some "earnings_per_share_basic_ttm") None;
    ColumnDef.mk None (Some "enterprise_value_fq") None;
    ColumnDef.mk None (Some "beta_1_year") None;
    ColumnDef.mk None (Some "total_revenue_ttm") None;
    ColumnDef.mk None (Some "gross_profit_fq") None;
    ColumnDef.mk None (Some "net_income_fq") None;
    ColumnDef.mk None (Some "total_debt_fq") None;
    ColumnDef.mk None (Some "Perf_W") None;
    ColumnDef.mk None (Some "Perf_1M") None;
    ColumnDef.mk None (Some "Perf_3M") None;
    ColumnDef.mk None (Some "Perf_6M") None;
    ColumnDef.mk None (Some "Perf_Y") None;
    ColumnDef.mk None (Some "Perf_YTD") None;
    ColumnDef.mk None (Some "Perf_5Y") None;
    ColumnDef.mk None (Some "Perf_All") None;
    ColumnDef.mk None (Some "price_52_week_high") None;
    ColumnDef.mk None (Some "price_52_week_low") None;
    ColumnDef.mk None (Some "High_All") None;
    ColumnDef.mk None (Some "Low_All") None;
    ColumnDef.mk None (Some "RSI") None;
    ColumnDef.mk None (Some "RSI7") None;
    ColumnDef.mk None (Some "Stoch_K") None;
    ColumnDef.mk None (Some "Stoch_D") None;
    ColumnDef.mk None (Some "CCI20") None;
    ColumnDef.mk None (Some "MACD_macd") None;
    ColumnDef.mk None (Some "ADX") None;
    ColumnDef.mk None (Some "ATR") None;
    ColumnDef.mk None (Some "Volatility_D") None;
    ColumnDef.mk None (Some "SMA20") None;
    ColumnDef.mk None (Some "SMA50") None;
    ColumnDef.mk None (Some "SMA200") None;
    ColumnDef.mk None (Some "EMA20") None;
    ColumnDef.mk None (Some "EMA50") None;
    ColumnDef.mk None (Some "EMA200") None;
    ColumnDef.mk None (Some "BB_upper") None;
    ColumnDef.mk None (Some "BB_lower") None;
    ColumnDef.mk None (Some "Recommend_All") None;
    ColumnDef.mk None (Some "Recommend_MA") None;
    ColumnDef.mk None (Some "Recommend_Other") None;
    ColumnDef.mk None (Some "sector") None;
    ColumnDef.mk None (Some "industry") None;
    ColumnDef.mk None (Some "exchange") None ].

Definition defaultVisibleColumns : list string :=
  [ "ticker"; "name"; "close"; "change"; "volume"; "market_cap_basic";
    "price_earnings_ttm"; "dividend_yield_recent"; "RSI"; "Recommend_All";
    "sector" ].

(** [a || b] on two optional strings: [a] unless it is falsy (absent or
    the empty string). *)
Definition or_else (a b : option string) : option string :=
  match a with
  | Some x => if String.eqb x "" then b else Some x
  | None => b
  end.

(** The identifier of a column: [col.id || col.accessorKey]. *)
Definition colId (col : ColumnDef.t) : option string :=
  or_else (ColumnDef.id col) (ColumnDef.accessorKey col).

(** [VisibilityState]: column identifier to boolean. *)
Abbreviation VisibilityState := (gmap string bool).

(** The initial [columnVisibility] state of [DataTable]: one entry per
    column with a truthy identifier ([if (colId)]), [true] exactly for the
    default visible columns. *)
Definition initialVisibility (cols : list ColumnDef.t) : VisibilityState :=
  foldl
    (fun visibility col =>
       match colId col with
       | Some c =>
           if String.eqb c "" then visibility
           else <[c := bool_decide (c ∈ defaultVisibleColumns)]> visibility
       | None => visibility
       end)
    ∅ cols.

(** ** The table library, as far as the column menu uses it *)

Module Column.
(** A column object of the table: its resolved identifier and the
    definition it was built from. *)
Record t : Type := mk {
  id : string;
  columnDef : ColumnDef.t
}.
End Column.

(** Modelled from the spec: [table.getAllColumns] belongs to the table
    library, which is not part of the sources.  The registry exposes one
    column per definition, under the definition's identifier. *)
Definition getAllColumns (cols : list ColumnDef.t) : list Column.t :=
  omap (fun def => (fun i => Column.mk i def) <$> colId def) cols.

(** Modelled from the spec: [column.getCanHide] of the table library reads
    the hideable flag of the definition; a column is hideable unless its
    definition says otherwise. *)
Definition getCanHide (column : Column.t) : bool :=
  default true (ColumnDef.enableHiding (Column.columnDef column)).

(** Modelled from the spec: [column.toggleVisibility(value)] of the table
    library sets the one entry of the column in the visibility map, and
    does nothing for a column that cannot be hidden. *)
Definition toggleVisibility (column : Column.t) (value : bool)
    (visibility : VisibilityState) : VisibilityState :=
  if getCanHide column then <[Column.id column := value]> visibility
  else visibility.

(** ** The column menu ([ColumnToggle.tsx]) *)

(** [allColumns]: the columns that can be hidden. *)
Definition allColumns : list Column.t :=
  List.filter getCanHide (getAllColumns columns).

(** [getColumn(columnId)]: [Array.find] by identifier, among [allColumns]. *)
Definition getColumn (columnId : string) : option Column.t :=
  List.find (fun col => String.eqb (Column.id col) columnId) allColumns.

(** The body shared by the handlers of the "All" and "None" buttons:
    [allColumns.forEach(col => { if (col.id !== "ticker") col.toggleVisibility(v) })].
    Each call queues a functional update of the state, so the updates
    compose in order. *)
Definition toggleAll (value : bool) (visibility : VisibilityState) : VisibilityState :=
  foldl
    (fun vis col =>
       if negb (String.eqb (Column.id col) "ticker")
       then toggleVisibility col value vis
       else vis)
    visibility allColumns.

Definition clickAll : VisibilityState -> VisibilityState := toggleAll true.
Definition clickNone : VisibilityState -> VisibilityState := toggleAll false.

(** The checkbox item of [columnId]: when [getColumn] finds no column the
    item is not rendered ([return null]) and nothing can change; otherwise
    [onCheckedChange] toggles the column. *)
Definition onCheckedChange (columnId : string) (checked : bool)
    (visibility : VisibilityState) : VisibilityState :=
  match getColumn columnId with
  | None => visibility
  | Some column => toggleVisibility column checked visibility
  end.

(** The user actions of the menu and the state they lead to. *)
Inductive MenuAction : Type :=
  | All
  | NoneOfThem
  | Check (columnId : string) (checked : bool).

Definition menuStep (visibility : VisibilityState) (a : MenuAction) : VisibilityState :=
  match a with
  | All => clickAll visibility
  | NoneOfThem => clickNone visibility
  | Check columnId checked => onCheckedChange columnId checked visibility
  end.

(** The visibility state after a sequence of actions, from the initial
    state of [DataTable]. *)
Definition visibilityAfter (actions : list MenuAction) : VisibilityState :=
  foldl menuStep (initialVisibility columns) actions.

(** Whether one pass of the "All"/"None" handler over [cols] reaches the
    entry [k]. *)
Definition reaches (cols : list Column.t) (k : string) : bool :=
  existsb
    (fun col =>
       negb (String.eqb (Column.id col) "ticker")
       && getCanHide col && String.eqb (Column.id col) k)
    cols.

(** ** The filter contract in the words of the specification *)

(** Categorical predicate: the "Any" sentinel always passes; otherwise the
    value of the record must equal the criterion. *)
Definition categoricalOk (criterion : string) (value : option string) : bool :=
  String.eqb criterion "Any"
  || match value with
     | Some v => String.eqb v criterion
     | None => false
     end.

(** One bound of a range: absent, or compared with the value. *)
Definition aboveMin (lo : option Qc) (v : Qc) : bool :=
  match lo with
  | Some l => geb v l
  | None => true
  end.

Definition belowMax (hi : option Qc) (v : Qc) : bool :=
  match hi with
  | Some h => geb h v
  | None => true
  end.

(** Numeric range predicate: a null value passes whatever the bounds. *)
Definition rangeOk (lo hi : option Qc) (value : option Qc) : bool :=
  match value with
  | None => true
  | Some v => aboveMin lo v && belowMax hi v
  end.

(** A bound entered in billions, in raw units: [bound * 1_000_000_000]. *)
Definition inBillions (bound : option Qc) : option Qc :=
  (fun b => fmul b billion) <$> bound.

(** [matches(record, criteria)]: the conjunction of the five predicates. *)
Definition matches (stock : Stock.t) (criteria : FilterCriteria.t) : bool :=
  categoricalOk (FilterCriteria.sector criteria) (Stock.sector stock)
  && categoricalOk (FilterCriteria.industry criteria) (Stock.industry stock)
  && rangeOk (inBillions (FilterCriteria.marketCapMin criteria))
             (inBillions (FilterCriteria.marketCapMax criteria))
             (Stock.market_cap_basic stock)
  && rangeOk (FilterCriteria.rsiMin criteria) (FilterCriteria.rsiMax criteria)
             (Stock.RSI stock)
  && rangeOk (FilterCriteria.changeMin criteria) (FilterCriteria.changeMax criteria)
             (Stock.change stock).

(** The three filterable numeric attributes, to state a property once for
    all of them. *)
Inductive RangeAttr : Type := MarketCap | Rsi | ChangePct.

Definition attrValue (a : RangeAttr) (stock : Stock.t) : option Qc :=
  match a with
  | MarketCap => Stock.market_cap_basic stock
  | Rsi => Stock.RSI stock
  | ChangePct => Stock.change stock
  end.

Definition minKey (a : RangeAttr) : FilterCriteria.Key :=
  match a with
  | MarketCap => FilterCriteria.KmarketCapMin
  | Rsi => FilterCriteria.KrsiMin
  | ChangePct => FilterCriteria.KchangeMin
  end.

Definition maxKey (a : RangeAttr) : FilterCriteria.Key :=
  match a with
  | MarketCap => FilterCriteria.KmarketCapMax
  | Rsi => FilterCriteria.KrsiMax
  | ChangePct => FilterCriteria.KchangeMax
  end.

Definition minBound (a : RangeAttr) (criteria : FilterCriteria.t) : option Qc :=
  match a with
  | MarketCap => FilterCriteria.marketCapMin criteria
  | Rsi => FilterCriteria.rsiMin criteria
  | ChangePct => FilterCriteria.changeMin criteria
  end.

Definition maxBound (a : RangeAttr) (criteria : FilterCriteria.t) : option Qc :=
  match a with
  | MarketCap => FilterCriteria.marketCapMax criteria
  | Rsi => FilterCriteria.rsiMax criteria
  | ChangePct => FilterCriteria.changeMax criteria
  end.

(** The criteria with the two bounds of one attribute replaced. *)
Definition withBounds (a : RangeAttr) (lo hi : option Qc)
    (criteria : FilterCriteria.t) : FilterCriteria.t :=
  match a with
  | MarketCap =>
      FilterCriteria.spread
        (FilterCriteria.spread criteria FilterCriteria.KmarketCapMin lo)
        FilterCriteria.KmarketCapMax hi
  | Rsi =>
      FilterCriteria.spread
        (FilterCriteria.spread criteria FilterCriteria.KrsiMin lo)
        FilterCriteria.KrsiMax hi
  | ChangePct =>
      FilterCriteria.spread
        (FilterCriteria.spread criteria FilterCriteria.KchangeMin lo)
        FilterCriteria.KchangeMax hi
  end.

(** What a bound of the attribute is compared with: the bound times
    [1_000_000_000] for the market cap, the bound itself for the RSI and
    the change. *)
Definition threshold (a : RangeAttr) (bound : Qc) : Qc :=
  match a with
  | MarketCap => fmul bound billion
  | Rsi | ChangePct => bound
  end.

(** [criteria2] adds constraints to [criteria1]: each field is either the
    same, or unconstrained in [criteria1] ("Any", null). *)
Definition addsCategorical (c1 c2 : string) : Prop := c2 = c1 \/ c1 = "Any".
Definition addsBound (b1 b2 : option Qc) : Prop := b2 = b1 \/ b1 = None.

Definition stricter (criteria1 criteria2 : FilterCriteria.t) : Prop :=
  addsCategorical (FilterCriteria.sector criteria1) (FilterCriteria.sector criteria2)
  /\ addsCategorical (FilterCriteria.industry criteria1) (FilterCriteria.industry criteria2)
  /\ addsBound (FilterCriteria.marketCapMin criteria1) (FilterCriteria.marketCapMin criteria2)
  /\ addsBound (FilterCriteria.marketCapMax criteria1) (FilterCriteria.marketCapMax criteria2)
  /\ addsBound (FilterCriteria.rsiMin criteria1) (FilterCriteria.rsiMin criteria2)
  /\ addsBound (FilterCriteria.rsiMax criteria1) (FilterCriteria.rsiMax criteria2)
  /\ addsBound (FilterCriteria.changeMin criteria1) (FilterCriteria.changeMin criteria2)
  /\ addsBound (FilterCriteria.changeMax criteria1) (FilterCriteria.changeMax criteria2).

(** ** Sorting and pagination

    [DataTable] hands the filtered rows to the table library
    ([@tanstack/react-table], version 8) and configures neither stage:
    [useReactTable] receives [getSortedRowModel()] and
    [getPaginationRowModel()] with no [sortingFn], no [sortUndefined], no
    [pageCount] and no [manualPagination], so the defaults of the library
    decide.  The library is not part of the sources; the definitions of
    this section transcribe its defaults for a numeric column, whose cells
    are [number | null]. *)

(** [ToNumber] of the language on [number | null]: null converts to 0. *)
Definition toNumber (x : option Qc) : Qc := default 0 x.

(** Library default: [compareBasic(a, b)], which is
    [a === b ? 0 : a > b ? 1 : -1].  It is the comparison of
    [sortingFns.basic], the sorting function that [getAutoSortingFn] picks
    for a column whose values are neither strings nor dates.  [a > b]
    converts a null operand to a number. *)
Definition compareBasic (a b : option Qc) : Z :=
  if bool_decide (a = b) then 0%Z
  else if gtb (toNumber a) (toNumber b) then 1%Z else (-1)%Z.

(** Library default: a [Row] of the table, made by [getCoreRowModel] from
    the record and its position in the data. *)
Module TableRow.
Record t : Type := mk { index : nat; original : Stock.t }.
End TableRow.

Definition getCoreRowModel (data : list Stock.t) : list TableRow.t :=
  imap TableRow.mk data.

(** Library default: the comparator that [getSortedRowModel] hands to
    [Array.prototype.sort], for one sorting entry [{ id, desc }]:
    [sortInt = sortingFn(rowA, rowB, id)]; a non-zero [sortInt] is negated
    when [desc] is set and returned; otherwise [rowA.index - rowB.index].
    ([sortUndefined] concerns [undefined] cells only, and [invertSorting]
    is not set.) *)
Definition sortCompare (attribute : Stock.t -> option Qc) (desc : bool)
    (rowA rowB : TableRow.t) : Z :=
  let sortInt :=
    compareBasic (attribute (TableRow.original rowA)) (attribute (TableRow.original rowB)) in
  if bool_decide (sortInt <> 0%Z)
  then (if desc then (sortInt * -1)%Z else sortInt)
  else (Z.of_nat (TableRow.index rowA) - Z.of_nat (TableRow.index rowB))%Z.

(** [Array.prototype.sort(compare)]: the elements in the order of the
    comparator, here by insertion.  The language fixes the result when the
    comparator is consistent on the elements ([sorted_rows_determined]
    below: no other arrangement is in order), and leaves it to the engine
    otherwise. *)
Fixpoint insertSorted {A : Type} (compare : A -> A -> Z) (x : A) (sorted : list A)
    : list A :=
  match sorted with
  | [] => [x]
  | first :: rest =>
      if bool_decide (compare x first < 0)%Z
      then x :: sorted
      else first :: insertSorted compare x rest
  end.

Definition arraySort {A : Type} (compare : A -> A -> Z) (array : list A) : list A :=
  foldr (insertSorted compare) [] array.

(** [compareBasic] is not consistent on null and 0 together: it answers
    [-1] both for [(null, 0)] and for [(0, null)].  A column that holds
    both has no order fixed by the language. *)
Definition mixesNullAndZero (attribute : Stock.t -> option Qc) (data : list Stock.t)
    : bool :=
  existsb (fun stock => bool_decide (attribute stock = None)) data
  && existsb (fun stock => bool_decide (attribute stock = Some 0)) data.

(** Library default: [getSortedRowModel] for the sorting state
    [[{ id, desc }]], with the column given by its accessor.  The rows are
    those of the core row model, whatever the previous sorting state was.
    [None] stands for the order left to the engine. *)
Definition getSortedRowModel (attribute : Stock.t -> option Qc) (desc : bool)
    (data : list Stock.t) : option (list TableRow.t) :=
  if mixesNullAndZero attribute data then None
  else Some (arraySort (sortCompare attribute desc) (getCoreRowModel data)).

(** The records a sorted table shows, from top to bottom. *)
Definition sortedRecords (attribute : Stock.t -> option Qc) (desc : bool)
    (data : list Stock.t) : option (list Stock.t) :=
  (fun rows : list TableRow.t => TableRow.original <$> rows)
    <$> getSortedRowModel attribute desc data.

(** The number by which a row is ordered. *)
Definition sortKey (attribute : Stock.t -> option Qc) (row : TableRow.t) : Qc :=
  toNumber (attribute (TableRow.original row)).

(** The order of two such numbers that a direction asks for, strict and
    not. *)
Definition keyBefore (desc : bool) (x y : Qc) : Prop :=
  if desc then y < x else x < y.

Definition keyOrder (desc : bool) : relation Qc :=
  if desc then flip Qcle else Qcle.

(** [a] may stand above [b] in the sorted table: its number comes first in
    the direction, or the two rows have the same value and [a] comes first
    in the data. *)
Definition rowNotAfter (attribute : Stock.t -> option Qc) (desc : bool)
    (a b : TableRow.t) : Prop :=
  keyBefore desc (sortKey attribute a) (sortKey attribute b)
  \/ (attribute (TableRow.original a) = attribute (TableRow.original b)
      /\ (TableRow.index a <= TableRow.index b)%nat).

(** The rows with a value, and the values in row order. *)
Definition hasValue (attribute : Stock.t -> option Qc) (row : Stock.t) : bool :=
  bool_decide (is_Some (attribute row)).

Definition nonNullRows (attribute : Stock.t -> option Qc) (rows : list Stock.t) : list Stock.t :=
  List.filter (hasValue attribute) rows.

Definition valuesOf (attribute : Stock.t -> option Qc) (rows : list Stock.t) : list Qc :=
  omap attribute rows.








(** The range predicate of one attribute, with the bounds in the unit of
    the attribute. *)
Definition scaled (a : RangeAttr) (bound : option Qc) : option Qc :=
  match a with
  | MarketCap => inBillions bound
  | Rsi | ChangePct => bound
  end.

Definition attrOk (a : RangeAttr) (lo hi : option Qc) (stock : Stock.t) : bool :=
  rangeOk (scaled a lo) (scaled a hi) (attrValue a stock).

(** ** The three records of the end-to-end scenario of the specification *)

Definition recordA : Stock.t :=
  Stock.mk "AAA" (Some "Tech") None None (Some (Qc_of_Z 75)) (Some (Qc_of_Z 3)) None.

Definition recordB : Stock.t :=
  Stock.mk "BBB" (Some "Tech") None (Some (Qc_of_Z 5000000000))
    (Some (Qc_of_Z 20)) (Some (Qc_of_Z (-1))) None.

Definition recordC : Stock.t :=
  Stock.mk "CCC" (Some "Energy") None (Some (Qc_of_Z 2000000000))
    None (Some (dec 0.5)) None.

(** Two more records: one without change, one with the RSI of [recordB]. *)
Definition recordD : Stock.t :=
  Stock.mk "DDD" (Some "Energy") None (Some (Qc_of_Z 1000000000))
    (Some (Qc_of_Z 50)) None None.

Definition recordE : Stock.t :=
  Stock.mk "EEE" (Some "Tech") None (Some (Qc_of_Z 4000000000))
    (Some (Qc_of_Z 20)) (Some (Qc_of_Z 2)) None.

(** ** The rest of the filter panel *)

(** [filters[key]]. *)
Definition getField (filters : FilterCriteria.t) (key : FilterCriteria.Key)
    : FilterCriteria.Value key :=
  match key return FilterCriteria.Value key with
  | FilterCriteria.Ksector => FilterCriteria.sector filters
  | FilterCriteria.Kindustry => FilterCriteria.industry filters
  | FilterCriteria.KmarketCapMin => FilterCriteria.marketCapMin filters
  | FilterCriteria.KmarketCapMax => FilterCriteria.marketCapMax filters
  | FilterCriteria.KrsiMin => FilterCriteria.rsiMin filters
  | FilterCriteria.KrsiMax => FilterCriteria.rsiMax filters
  | FilterCriteria.KchangeMin => FilterCriteria.changeMin filters
  | FilterCriteria.KchangeMax => FilterCriteria.changeMax filters
  end.

(** [x !== null] on a number. *)
Definition notNull (x : option Qc) : bool :=
  match x with
  | Some _ => true
  | None => false
  end.

(** [hasActiveFilters]: decides whether "Clear all" is shown. *)
Definition hasActiveFilters (filters : FilterCriteria.t) : bool :=
  negb (String.eqb (FilterCriteria.sector filters) "Any")
  || negb (String.eqb (FilterCriteria.industry filters) "Any")
  || notNull (FilterCriteria.marketCapMin filters)
  || notNull (FilterCriteria.marketCapMax filters)
  || notNull (FilterCriteria.rsiMin filters)
  || notNull (FilterCriteria.rsiMax filters)
  || notNull (FilterCriteria.changeMin filters)
  || notNull (FilterCriteria.changeMax filters).

(** [activeFilterCount]: the five flags, [.filter(Boolean).length]. *)
Definition activeFilterCount (filters : FilterCriteria.t) : nat :=
  length
    (List.filter (fun flag : bool => flag)
       [ negb (String.eqb (FilterCriteria.sector filters) "Any");
         negb (String.eqb (FilterCriteria.industry filters) "Any");
         notNull (FilterCriteria.marketCapMin filters)
         || notNull (FilterCriteria.marketCapMax filters);
         notNull (FilterCriteria.rsiMin filters)
         || notNull (FilterCriteria.rsiMax filters);
         notNull (FilterCriteria.changeMin filters)
         || notNull (FilterCriteria.changeMax filters) ]).

(** [set.add(x)] on a [Set<string>], kept as the list of its elements in
    insertion order. *)
Definition setAdd (set : list string) (x : string) : list string :=
  if bool_decide (x ∈ set) then set else set ++ [x].

(** [if (x) set.add(x)] for [x : string | null]: null and the empty
    string are falsy. *)
Definition addIfTruthy (set : list string) (x : option string) : list string :=
  match x with
  | Some s => if negb (String.eqb s "") then setAdd set s else set
  | None => set
  end.

(** A string of the program is a sequence of UTF-16 code units; here it
    is the sequence of the bytes of its UTF-8 form.  Byte order and code
    unit order agree except between the lead bytes [EE], [EF] (U+E000 to
    U+FFFF) and [F0] to [F4] (the characters written with surrogates):
    [utf16Rank] puts the latter first. *)
Definition utf16Rank (c : Ascii.ascii) : Ascii.ascii :=
  let n := N_of_ascii c in
  if (240 <=? n)%N && (n <=? 244)%N then ascii_of_N (n - 2)
  else if (238 <=? n)%N && (n <=? 239)%N then ascii_of_N (n + 5)
  else c.

Fixpoint utf16Key (s : string) : string :=
  match s with
  | EmptyString => EmptyString
  | String c rest => String (utf16Rank c) (utf16Key rest)
  end.

(** The default order of [Array.prototype.sort] on strings: lexicographic
    by UTF-16 code unit. *)
Definition stringLe (a b : string) : Prop :=
  String.leb (utf16Key a) (utf16Key b) = true.

Definition stringLe_dec : RelDecision stringLe :=
  fun a b => decide (String.leb (utf16Key a) (utf16Key b) = true).

(** [Array.from(set).sort()]. *)
Definition sortStrings (set : list string) : list string :=
  @merge_sort _ stringLe stringLe_dec set.

(** The two sets filled by the one [data.forEach] of the first [useMemo]. *)
Definition optionSets (data : list Stock.t) : list string * list string :=
  foldl
    (fun sets stock =>
       (addIfTruthy (fst sets) (Stock.sector stock),
        addIfTruthy (snd sets) (Stock.industry stock)))
    ([], []) data.

Definition sectors (data : list Stock.t) : list string :=
  "Any" :: sortStrings (fst (optionSets data)).

Definition industries (data : list Stock.t) : list string :=
  "Any" :: sortStrings (snd (optionSets data)).

(** [x === y] for [x : string | null] and [y : string]. *)
Definition strict_eq (x : option string) (y : string) : bool :=
  match x with
  | Some s => String.eqb s y
  | None => false
  end.

(** [filteredIndustries]: the industries offered under the selected
    sector. *)
Definition filteredIndustries (data : list Stock.t) (filters : FilterCriteria.t)
    : list string :=
  if String.eqb (FilterCriteria.sector filters) "Any" then industries data
  else
    "Any"
    :: sortStrings
         (foldl
            (fun industrySet stock =>
               if strict_eq (Stock.sector stock) (FilterCriteria.sector filters)
               then addIfTruthy industrySet (Stock.industry stock)
               else industrySet)
            [] data).

(** The three presets that set criteria, the object each hands to
    [onFilterChange], and its [active] flag. *)
Inductive Preset : Type := Overbought | Oversold | LargeCap.

Definition presetFilters (preset : Preset) : FilterCriteria.t :=
  match preset with
  | Overbought =>
      FilterCriteria.spread
        (FilterCriteria.spread defaultFilters FilterCriteria.KrsiMin (Some (Qc_of_Z 70)))
        FilterCriteria.KrsiMax (Some (Qc_of_Z 100))
  | Oversold =>
      FilterCriteria.spread
        (FilterCriteria.spread defaultFilters FilterCriteria.KrsiMin (Some (Qc_of_Z 0)))
        FilterCriteria.KrsiMax (Some (Qc_of_Z 30))
  | LargeCap =>
      FilterCriteria.spread defaultFilters FilterCriteria.KmarketCapMin (Some (Qc_of_Z 10))
  end.

(** [x === n] for [x : number | null] and a number [n]. *)
Definition numIs (x : option Qc) (n : Qc) : bool :=
  match x with
  | Some v => bool_decide (v = n)
  | None => false
  end.

(** [x === null] on a number. *)
Definition isNull (x : option Qc) : bool := negb (notNull x).

Definition presetActive (preset : Preset) (filters : FilterCriteria.t) : bool :=
  match preset with
  | Overbought =>
      numIs (FilterCriteria.rsiMin filters) (Qc_of_Z 70)
      && numIs (FilterCriteria.rsiMax filters) (Qc_of_Z 100)
  | Oversold =>
      numIs (FilterCriteria.rsiMin filters) (Qc_of_Z 0)
      && numIs (FilterCriteria.rsiMax filters) (Qc_of_Z 30)
  | LargeCap =>
      numIs (FilterCriteria.marketCapMin filters) (Qc_of_Z 10)
      && isNull (FilterCriteria.marketCapMax filters)
  end.

(** ** The range shown under the table ([DataTable.tsx])

    "Showing [from] to [to] of [N] stocks", from the page index held by the
    table, the page size held by the component and the number of filtered
    rows. *)
Definition showingFrom (pageIndex pageSize : Z) : Z :=
  (pageIndex * pageSize + 1)%Z.

Definition showingTo (pageIndex pageSize N : Z) : Z :=
  Z.min ((pageIndex + 1) * pageSize) N.

(** ** The rank of a rating label, from the lowest band to the highest *)
Definition ratingRank (label : TechnicalRating) : nat :=
  match label with
  | StrongSell => 0
  | Sell => 1
  | Neutral => 2
  | Buy => 3
  | StrongBuy => 4
  end.

(** ** The rest of the column registry ([columns.tsx]) *)

(** [s.split(sep)] for a separator of one character: the pieces between
    the occurrences of the separator, at least one piece. *)
Fixpoint splitOn (sep : Ascii.ascii) (s : string) : list string :=
  match s with
  | EmptyString => [EmptyString]
  | String c rest =>
      if Ascii.eqb c sep then EmptyString :: splitOn sep rest
      else
        match splitOn sep rest with
        | piece :: pieces => String c piece :: pieces
        | [] => [String c EmptyString]
        end
  end.

(** [extractTicker]: [parts.length > 1 ? parts[1] : symbol]. *)
Definition extractTicker (symbol : string) : string :=
  let parts := splitOn ":"%char symbol in
  match parts with
  | _ :: part1 :: _ => part1
  | _ => symbol
  end.

(** Whether a string has a colon in it. *)
Fixpoint hasColon (s : string) : bool :=
  match s with
  | EmptyString => false
  | String c rest => Ascii.eqb c ":"%char || hasColon rest
  end.

(** [Math.abs]. *)
Definition abs (value : Qc) : Qc := if ltb value 0 then - value else value.

Section formatting.
(** [x.toFixed(2)], the decimal rendering of the platform, as a function
    of an exact number: the rendering of the binary64 value nearest to it.
    The code renders the result of one division, which is the binary64
    value nearest to the exact quotient. *)
Variable toFixed2 : Qc -> string.

(** [formatLargeNumber]; the template literals are concatenations. *)
Definition formatLargeNumber (value : option Qc) : string :=
  match value with
  | None => "-"
  | Some value =>
      let absValue := abs value in
      let sign := if ltb value 0 then "-" else "" in
      if geb absValue (Qc_of_Z 1000000000000)
      then sign ++ "$" ++ toFixed2 (absValue / Qc_of_Z 1000000000000) ++ "T"
      else if geb absValue (Qc_of_Z 1000000000)
      then sign ++ "$" ++ toFixed2 (absValue / Qc_of_Z 1000000000) ++ "B"
      else if geb absValue (Qc_of_Z 1000000)
      then sign ++ "$" ++ toFixed2 (absValue / Qc_of_Z 1000000) ++ "M"
      else if geb absValue (Qc_of_Z 1000)
      then sign ++ "$" ++ toFixed2 (absValue / Qc_of_Z 1000) ++ "K"
      else sign ++ "$" ++ toFixed2 absValue
  end%string.

End formatting.

(** The unit [formatLargeNumber] picks for an absolute value: the divisor
    and the suffix. *)
Definition largeUnit (absValue : Qc) : Qc * string :=
  if geb absValue (Qc_of_Z 1000000000000) then (Qc_of_Z 1000000000000, "T")
  else if geb absValue (Qc_of_Z 1000000000) then (Qc_of_Z 1000000000, "B")
  else if geb absValue (Qc_of_Z 1000000) then (Qc_of_Z 1000000, "M")
  else if geb absValue (Qc_of_Z 1000) then (Qc_of_Z 1000, "K")
  else (1, "").

Module ColumnGroup.
(** One entry of [columnGroups]: its key, its label and its column ids. *)
Record t : Type := mk {
  key : string;
  label : string;
  columns : list string
}.
End ColumnGroup.

(** [columnGroups], in the order of the source (the order of
    [Object.entries]). *)
Definition columnGroups : list ColumnGroup.t :=
  [ ColumnGroup.mk "basic" "Basic Info"
      [ "ticker"; "name"; "description"; "exchange" ];
    ColumnGroup.mk "price" "Price"
      [ "close"; "open"; "high"; "low"; "change"; "change_abs" ];
    ColumnGroup.mk "volume" "Volume"
      [ "volume"; "average_volume_10d_calc"; "average_volume_30d_calc"; "relative_volume_10d_calc"; "VWAP" ];
    ColumnGroup.mk "fundamentals" "Fundamentals"
      [ "market_cap_basic"; "price_earnings_ttm"; "price_sales_ratio"; "price_book_ratio"; "dividend_yield_recent"; "earnings_per_share_basic_ttm"; "enterprise_value_fq"; "beta_1_year"; "total_revenue_ttm"; "gross_profit_fq"; "net_income_fq"; "total_debt_fq" ];
    ColumnGroup.mk "performance" "Performance"
      [ "Perf_W"; "Perf_1M"; "Perf_3M"; "Perf_6M"; "Perf_Y"; "Perf_YTD"; "Perf_5Y"; "Perf_All" ];
    ColumnGroup.mk "priceExtremes" "Price Extremes"
      [ "price_52_week_high"; "price_52_week_low"; "High_All"; "Low_All" ];
    ColumnGroup.mk "technicals" "Technical Indicators"
      [ "RSI"; "RSI7"; "Stoch_K"; "Stoch_D"; "CCI20"; "MACD_macd"; "ADX"; "ATR"; "Volatility_D" ];
    ColumnGroup.mk "movingAverages" "Moving Averages"
      [ "SMA20"; "SMA50"; "SMA200"; "EMA20"; "EMA50"; "EMA200"; "BB_upper"; "BB_lower" ];
    ColumnGroup.mk "ratings" "Ratings"
      [ "Recommend_All"; "Recommend_MA"; "Recommend_Other" ];
    ColumnGroup.mk "info" "Company Info"
      [ "sector"; "industry" ] ].

(** The checkbox items the menu renders: for every group, the columns of
    the group that [getColumn] finds. *)
Definition menuItems : list Column.t :=
  flat_map
    (fun group => omap getColumn (ColumnGroup.columns group))
    columnGroups.

(** The identifiers of the columns of the registry. *)
Definition columnIds (cols : list ColumnDef.t) : list string := omap colId cols.

(** * Properties *)

(** ** Comparisons *)

Lemma geb_true (a b : Qc) : geb a b = true <-> b ≤ a.
Proof. unfold geb. apply bool_decide_eq_true. Qed.

Lemma ltb_true (a b : Qc) : ltb a b = true <-> a < b.
Proof. unfold ltb. apply bool_decide_eq_true. Qed.

Lemma gtb_true (a b : Qc) : gtb a b = true <-> b < a.
Proof. unfold gtb. apply bool_decide_eq_true. Qed.

Lemma ltb_geb (a b : Qc) : ltb a b = negb (geb a b).
Proof.
  unfold ltb, geb.
  destruct (decide (a < b)) as [Hlt | Hge].
  - rewrite bool_decide_eq_true_2 by done.
    rewrite bool_decide_eq_false_2; [done | by apply Qclt_nge].
  - rewrite bool_decide_eq_false_2 by done.
    rewrite bool_decide_eq_true_2; [done | by apply Qcle_ngt].
Qed.

Lemma gtb_geb (a b : Qc) : gtb a b = negb (geb b a).
Proof. apply ltb_geb. Qed.

Lemma billion_pos : 0 < billion.
Proof. done. Qed.

(** ** The callback of [applyFilters] is the conjunction of the contract *)

Lemma keeps_matches (filters : FilterCriteria.t) (stock : Stock.t) :
  keeps filters stock = matches stock filters.
Proof.
  destruct filters as [fs fi m1 m2 r1 r2 c1 c2].
  destruct stock as [sy ss si mc rsi ch ra].
  unfold keeps, matches, categoricalOk, rangeOk, aboveMin, belowMax,
    inBillions, strict_ne; simpl.
  rewrite ?ltb_geb, ?gtb_geb.
  destruct (String.eqb fs "Any"); simpl;
    [| destruct ss as [s |]; simpl; [destruct (String.eqb s fs); simpl |]; try done];
    (destruct (String.eqb fi "Any"); simpl;
     [| destruct si as [i |]; simpl; [destruct (String.eqb i fi); simpl |]; try done]);
    destruct mc as [m |], m1 as [lo1 |], m2 as [hi1 |]; simpl;
    rewrite ?ltb_geb, ?gtb_geb;
    repeat match goal with
           | |- context [geb ?a ?b] => destruct (geb a b); simpl
           end; try done;
    destruct rsi as [r |], r1 as [lo2 |], r2 as [hi2 |]; simpl;
    rewrite ?ltb_geb, ?gtb_geb;
    repeat match goal with
           | |- context [geb ?a ?b] => destruct (geb a b); simpl
           end; try done;
    destruct ch as [c |], c1 as [lo3 |], c2 as [hi3 |]; simpl;
    rewrite ?ltb_geb, ?gtb_geb;
    repeat match goal with
           | |- context [geb ?a ?b] => destruct (geb a b); simpl
           end; done.
Qed.

(** The value of a decimal literal, computed once. *)
Ltac dec_value q :=
  let v := eval vm_compute in (this (dec q)) in
  replace (dec q) with (Q2Qc v) in *
    by (apply Qc_is_canon; vm_compute; reflexivity).

Ltac dec_values :=
  repeat match goal with
         | |- context [dec ?q] => dec_value q
         | H : context [dec ?q] |- _ => dec_value q
         end.

(** Order reasoning on numbers, through the rationals underneath. *)
Ltac qc_order :=
  dec_values;
  repeat match goal with
         | H : ¬ (_ ≤ _)%Qc |- _ => apply Qclt_nge in H
         | H : ¬ (_ < _)%Qc |- _ => apply Qcle_ngt in H
         | |- ¬ (_ ≤ _)%Qc => apply Qclt_nge
         | |- ¬ (_ < _)%Qc => apply Qcle_ngt
         end;
  unfold Qcle, Qclt, dec in *; cbn -[Qle Qlt Qred] in *;
  rewrite ?Qred_correct in *; lra.

Lemma rangeOk_unbounded (value : option Qc) : rangeOk None None value = true.
Proof. by destruct value. Qed.

Lemma rangeOk_null (lo hi : option Qc) : rangeOk lo hi None = true.
Proof. done. Qed.

Lemma scaled_threshold (a : RangeAttr) (bound : Qc) :
  scaled a (Some bound) = Some (threshold a bound).
Proof. by destruct a. Qed.

(** The check of one attribute is one factor of the callback: the rest is
    the callback with the two bounds of the attribute cleared. *)
Lemma keeps_factor (a : RangeAttr) (lo hi : option Qc)
    (criteria : FilterCriteria.t) (stock : Stock.t) :
  keeps (withBounds a lo hi criteria) stock
  = keeps (withBounds a None None criteria) stock && attrOk a lo hi stock.
Proof.
  rewrite !keeps_matches. unfold attrOk, scaled, matches, inBillions.
  destruct a; simpl; rewrite ?rangeOk_unbounded;
    repeat match goal with
           | |- context [categoricalOk ?c ?v] => destruct (categoricalOk c v); simpl
           end; try done;
    repeat match goal with
           | |- context [rangeOk ?l ?h ?v] => destruct (rangeOk l h v); simpl
           end; done.
Qed.

Lemma withBounds_same (a : RangeAttr) (criteria : FilterCriteria.t) :
  withBounds a (minBound a criteria) (maxBound a criteria) criteria = criteria.
Proof. by destruct a, criteria. Qed.

Lemma filter_sublist {A : Type} (f : A -> bool) (l : list A) :
  sublist (List.filter f l) l.
Proof.
  induction l as [| x l IH]; simpl; [constructor |].
  destruct (f x); by constructor.
Qed.

Lemma filter_length_le_impl {A : Type} (f g : A -> bool) (l : list A) :
  (forall x, f x = true -> g x = true) ->
  (length (List.filter f l) <= length (List.filter g l))%nat.
Proof.
  intros Himp. induction l as [| x l IH]; simpl; [lia |].
  destruct (f x) eqn:Hf.
  - rewrite (Himp x Hf). simpl. lia.
  - destruct (g x); simpl; lia.
Qed.

(** ** The filter evaluator *)

(** C5. [applyFilters] returns exactly the records for which the conjunction
    of the five per-field predicates holds (sector, industry, and the three
    ranges), as a subsequence of the input in the input's order. *)
Theorem applyFilters_is_conjunctive_subsequence
    (data : list Stock.t) (filters : FilterCriteria.t) :
  applyFilters data filters = List.filter (fun stock => matches stock filters) data
  /\ sublist (applyFilters data filters) data
  /\ (forall stock,
        stock ∈ applyFilters data filters
        <-> stock ∈ data
            /\ categoricalOk (FilterCriteria.sector filters) (Stock.sector stock) = true
            /\ categoricalOk (FilterCriteria.industry filters) (Stock.industry stock) = true
            /\ attrOk MarketCap (FilterCriteria.marketCapMin filters)
                 (FilterCriteria.marketCapMax filters) stock = true
            /\ attrOk Rsi (FilterCriteria.rsiMin filters)
                 (FilterCriteria.rsiMax filters) stock = true
            /\ attrOk ChangePct (FilterCriteria.changeMin filters)
                 (FilterCriteria.changeMax filters) stock = true).
Proof.
  split; [| split].
  - unfold applyFilters. apply filter_ext. intros stock. apply keeps_matches.
  - apply filter_sublist.
  - intros stock. unfold applyFilters.
    rewrite !list_elem_of_In, filter_In, keeps_matches.
    unfold matches, attrOk, scaled; simpl.
    rewrite !andb_true_iff. tauto.
Qed.

(** C1. A record whose value for a filterable numeric attribute is null
    passes the range predicate of that attribute for every pair of bounds,
    and the callback gives the same answer as with the bounds cleared: when
    the other criteria are satisfied the record is kept. *)
Theorem null_value_passes_every_range
    (a : RangeAttr) (stock : Stock.t) (criteria : FilterCriteria.t)
    (lo hi : option Qc) :
  attrValue a stock = None ->
  attrOk a lo hi stock = true
  /\ keeps (withBounds a lo hi criteria) stock
     = keeps (withBounds a None None criteria) stock
  /\ (keeps (withBounds a None None criteria) stock = true ->
      keeps (withBounds a lo hi criteria) stock = true
      /\ forall data, stock ∈ data ->
           stock ∈ applyFilters data (withBounds a lo hi criteria)).
Proof.
  intros Hnull.
  assert (Hok : attrOk a lo hi stock = true).
  { unfold attrOk. rewrite Hnull. apply rangeOk_null. }
  assert (Heq : keeps (withBounds a lo hi criteria) stock
                = keeps (withBounds a None None criteria) stock).
  { rewrite keeps_factor, Hok. apply andb_true_r. }
  split; [done | split; [done |]].
  intros Hrest. rewrite Heq. split; [done |].
  intros data Hin. unfold applyFilters.
  apply list_elem_of_In, filter_In. split; [by apply list_elem_of_In |].
  by rewrite Heq.
Qed.

Lemma null_value_passes_every_range_witness :
  attrValue Rsi recordC = None
  /\ keeps (withBounds Rsi (Some (Qc_of_Z 70)) (Some (Qc_of_Z 10)) defaultFilters) recordC
     = true.
Proof.
  split; [reflexivity |].
  apply (null_value_passes_every_range Rsi recordC defaultFilters
           (Some (Qc_of_Z 70)) (Some (Qc_of_Z 10)) eq_refl).
  reflexivity.
Defined.

Lemma categoricalOk_mono (c1 c2 : string) (value : option string) :
  addsCategorical c1 c2 ->
  categoricalOk c2 value = true -> categoricalOk c1 value = true.
Proof. by intros [-> | ->]. Qed.

Lemma rangeOk_mono (lo1 lo2 hi1 hi2 value : option Qc) :
  addsBound lo1 lo2 -> addsBound hi1 hi2 ->
  rangeOk lo2 hi2 value = true -> rangeOk lo1 hi1 value = true.
Proof.
  intros [-> | ->] [-> | ->]; try done; destruct value as [v |]; simpl; try done;
    rewrite ?andb_true_iff; tauto.
Qed.

Lemma addsBound_inBillions (b1 b2 : option Qc) :
  addsBound b1 b2 -> addsBound (inBillions b1) (inBillions b2).
Proof. intros [-> | ->]; [by left | by right]. Qed.

Lemma stricter_keeps (criteria1 criteria2 : FilterCriteria.t) (stock : Stock.t) :
  stricter criteria1 criteria2 ->
  keeps criteria2 stock = true -> keeps criteria1 stock = true.
Proof.
  intros (Hs & Hi & Hm1 & Hm2 & Hr1 & Hr2 & Hc1 & Hc2).
  rewrite !keeps_matches. unfold matches. rewrite !andb_true_iff.
  intros ((((H1 & H2) & H3) & H4) & H5).
  repeat split.
  - by apply (categoricalOk_mono _ _ _ Hs).
  - by apply (categoricalOk_mono _ _ _ Hi).
  - apply (rangeOk_mono _ _ _ _ _ (addsBound_inBillions _ _ Hm1)
             (addsBound_inBillions _ _ Hm2) H3).
  - apply (rangeOk_mono _ _ _ _ _ Hr1 Hr2 H4).
  - apply (rangeOk_mono _ _ _ _ _ Hc1 Hc2 H5).
Qed.

(** C4. When [criteria2] is [criteria1] with further constraints switched
    on (a sector or industry moved from "Any" to a value, a bound moved
    from null to a number), the result under [criteria2] is no longer than
    the result under [criteria1]. *)
Theorem adding_constraints_never_grows_result
    (data : list Stock.t) (criteria1 criteria2 : FilterCriteria.t) :
  stricter criteria1 criteria2 ->
  (length (applyFilters data criteria2) <= length (applyFilters data criteria1))%nat.
Proof.
  intros Hs. unfold applyFilters. apply filter_length_le_impl.
  intros stock. by apply stricter_keeps.
Qed.

Lemma adding_constraints_never_grows_result_witness :
  let criteria1 := FilterCriteria.spread defaultFilters FilterCriteria.Ksector "Tech" in
  let criteria2 :=
    FilterCriteria.spread criteria1 FilterCriteria.KrsiMin (Some (Qc_of_Z 70)) in
  stricter criteria1 criteria2
  /\ (length (applyFilters [recordA; recordB; recordC] criteria2)
      <= length (applyFilters [recordA; recordB; recordC] criteria1))%nat.
Proof.
  assert (Hs : stricter
                 (FilterCriteria.spread defaultFilters FilterCriteria.Ksector "Tech")
                 (FilterCriteria.spread
                    (FilterCriteria.spread defaultFilters FilterCriteria.Ksector "Tech")
                    FilterCriteria.KrsiMin (Some (Qc_of_Z 70)))).
  { unfold stricter, addsCategorical, addsBound; simpl.
    repeat split; first [by left | by right]. }
  split; [exact Hs |].
  exact (adding_constraints_never_grows_result [recordA; recordB; recordC] _ _ Hs).
Defined.

(** With the two compared thresholds inverted no value lies in the
    range. *)
Lemma attrOk_inverted (a : RangeAttr) (lo hi v : Qc) (stock : Stock.t) :
  threshold a hi < threshold a lo -> attrValue a stock = Some v ->
  attrOk a (Some lo) (Some hi) stock = false.
Proof.
  intros Hlt Hv. unfold attrOk. rewrite !scaled_threshold, Hv. simpl.
  revert Hlt. generalize (threshold a lo) (threshold a hi). intros tlo thi Hlt.
  apply andb_false_iff.
  destruct (decide (tlo ≤ v)) as [Hge | Hnge].
  - right. unfold geb. apply bool_decide_eq_false_2. qc_order.
  - left. unfold geb. by apply bool_decide_eq_false_2.
Qed.

(** C7, amended.  The bounds of a range are applied as they are, without
    correction or rejection.  When the minimum the code compares with is
    above the maximum it compares with (for the RSI and the change the
    two bounds themselves, for the market cap the two bounds times 10^9 as
    the code computes them), every record with a value for the attribute is
    dropped, and the result is made of the records with a null value that
    satisfy the other criteria. *)
Theorem inverted_bounds_keep_only_null_values
    (a : RangeAttr) (data : list Stock.t) (criteria : FilterCriteria.t)
    (lo hi : Qc) :
  minBound a criteria = Some lo ->
  maxBound a criteria = Some hi ->
  match a with
  | MarketCap => fmul hi billion < fmul lo billion
  | Rsi | ChangePct => hi < lo
  end ->
  (forall stock v, attrValue a stock = Some v -> keeps criteria stock = false)
  /\ (forall stock, stock ∈ applyFilters data criteria -> attrValue a stock = None)
  /\ applyFilters data criteria
     = List.filter
         (fun stock =>
            bool_decide (attrValue a stock = None)
            && keeps (withBounds a None None criteria) stock)
         data.
Proof.
  intros Hlo Hhi Hlt.
  assert (Hlt' : threshold a hi < threshold a lo) by (by destruct a).
  assert (Hc : criteria = withBounds a (Some lo) (Some hi) criteria)
    by (by rewrite <- Hlo, <- Hhi, withBounds_same).
  assert (Hdrop : forall stock v,
             attrValue a stock = Some v -> keeps criteria stock = false).
  { intros stock v Hv. rewrite Hc, keeps_factor.
    rewrite (attrOk_inverted a lo hi v stock Hlt' Hv). apply andb_false_r. }
  split; [exact Hdrop | split].
  - intros stock Hin. unfold applyFilters in Hin.
    apply list_elem_of_In, filter_In in Hin. destruct Hin as [_ Hk].
    destruct (attrValue a stock) as [v |] eqn:Hv; [| done].
    rewrite (Hdrop stock v Hv) in Hk. discriminate.
  - unfold applyFilters. apply filter_ext. intros stock.
    destruct (attrValue a stock) as [v |] eqn:Hv.
    + rewrite (Hdrop stock v Hv). by rewrite bool_decide_eq_false_2.
    + rewrite bool_decide_eq_true_2 by done. simpl.
      rewrite Hc at 1. rewrite keeps_factor. unfold attrOk. rewrite Hv.
      rewrite rangeOk_null. apply andb_true_r.
Qed.

Lemma inverted_bounds_keep_only_null_values_witness :
  let criteria := withBounds Rsi (Some (Qc_of_Z 70)) (Some (Qc_of_Z 30)) defaultFilters in
  minBound Rsi criteria = Some (Qc_of_Z 70)
  /\ maxBound Rsi criteria = Some (Qc_of_Z 30)
  /\ Qc_of_Z 30 < Qc_of_Z 70
  /\ applyFilters [recordA; recordB; recordC] criteria = [recordC].
Proof.
  split; [reflexivity | split; [reflexivity | split; [reflexivity |]]].
  rewrite (proj2 (proj2 (inverted_bounds_keep_only_null_values Rsi
             [recordA; recordB; recordC]
             (withBounds Rsi (Some (Qc_of_Z 70)) (Some (Qc_of_Z 30)) defaultFilters)
             (Qc_of_Z 70) (Qc_of_Z 30) eq_refl eq_refl eq_refl))).
  vm_compute. reflexivity.
Defined.

(** C7 as stated fails for the market cap.  The bounds 5.000000000000007
    (minimum) and 5.000000000000006 (maximum) are two different numbers,
    the minimum the greater, and their products by 10^9 round to one and the
    same number; a record with that market cap has a value, passes both
    comparisons and is kept. *)
Lemma inverted_market_cap_bounds_keep_a_record :
  let lo := dec 5.000000000000007 in
  let hi := dec 5.000000000000006 in
  let criteria := withBounds MarketCap (Some lo) (Some hi) defaultFilters in
  let stock :=
    Stock.mk "ASX:XYZ" None None (Some (fmul lo billion)) None None None in
  minBound MarketCap criteria = Some lo
  /\ maxBound MarketCap criteria = Some hi
  /\ hi < lo
  /\ fmul hi billion = fmul lo billion
  /\ attrValue MarketCap stock = Some (fmul lo billion)
  /\ keeps criteria stock = true
  /\ applyFilters [stock] criteria = [stock].
Proof.
  assert (Heq : fmul (dec 5.000000000000006) billion
                = fmul (dec 5.000000000000007) billion)
    by (apply Qc_is_canon; vm_compute; reflexivity).
  assert (Hk : keeps
                 (withBounds MarketCap (Some (dec 5.000000000000007))
                    (Some (dec 5.000000000000006)) defaultFilters)
                 (Stock.mk "ASX:XYZ" None None
                    (Some (fmul (dec 5.000000000000007) billion)) None None None)
               = true) by (vm_compute; reflexivity).
  repeat split; try exact Heq; try exact Hk; vm_compute; reflexivity.
Qed.

(** C10, amended.  The bounds of the market-cap range are entered in
    billions: each is multiplied by 10^9, the product rounded to the nearest
    binary64 value, and that number is compared with [market_cap_basic]; the
    bounds of RSI and change % are compared with the raw value as they are.
    For a record with a value [v], the callback holds exactly when the other
    criteria hold, the minimum (if any) compares at most [v] and the
    maximum (if any) at least [v]. *)
Theorem range_bounds_units
    (a : RangeAttr) (stock : Stock.t) (criteria : FilterCriteria.t)
    (lo hi : option Qc) (v : Qc) :
  attrValue a stock = Some v ->
  let compared (bound : Qc) : Qc :=
    match a with
    | MarketCap => fl (bound * Qc_of_Z (10 ^ 9))
    | Rsi | ChangePct => bound
    end in
  keeps (withBounds a lo hi criteria) stock = true
  <-> keeps (withBounds a None None criteria) stock = true
      /\ (forall l, lo = Some l -> compared l ≤ v)
      /\ (forall h, hi = Some h -> v ≤ compared h).
Proof.
  intros Hv compared.
  assert (Hth : forall b, compared b = threshold a b).
  { intros b. unfold compared. by destruct a. }
  rewrite keeps_factor, andb_true_iff. unfold attrOk. rewrite Hv.
  destruct lo as [l |], hi as [h |]; rewrite ?scaled_threshold;
    assert (Hnone : scaled a None = None) by (by destruct a);
    rewrite ?Hnone; simpl; rewrite ?andb_true_iff, ?geb_true;
    (split;
     [ intros (Hrest & Hbounds); split; [done |]; split; intros b Hb;
       try discriminate; injection Hb as <-; rewrite Hth; tauto
     | intros (Hrest & Hlo & Hhi); split; [done |];
       repeat split; try done; rewrite <- Hth; auto ]).
Qed.

Lemma range_bounds_units_witness :
  attrValue MarketCap recordB = Some (Qc_of_Z 5000000000)
  /\ keeps (withBounds MarketCap (Some (Qc_of_Z 5)) (Some (Qc_of_Z 5)) defaultFilters)
       recordB = true
  /\ attrValue Rsi recordB = Some (Qc_of_Z 20)
  /\ keeps (withBounds Rsi (Some (Qc_of_Z 20)) (Some (Qc_of_Z 20)) defaultFilters)
       recordB = true.
Proof.
  split; [reflexivity | split; [| split; [reflexivity |]]].
  - apply (range_bounds_units MarketCap recordB defaultFilters
             (Some (Qc_of_Z 5)) (Some (Qc_of_Z 5)) (Qc_of_Z 5000000000) eq_refl).
    split; [vm_compute; reflexivity |].
    split; intros b Hb; injection Hb as <-; by vm_compute.
  - apply (range_bounds_units Rsi recordB defaultFilters
             (Some (Qc_of_Z 20)) (Some (Qc_of_Z 20)) (Qc_of_Z 20) eq_refl).
    split; [vm_compute; reflexivity |].
    split; intros b Hb; injection Hb as <-; by vm_compute.
Defined.

(** C10 as stated, with the exact product, fails.  With the minimum 0.1
    (billions) a record with a market cap of 100000000 is kept, although
    0.1 as a binary64 value times 10^9 is above 100000000: the product
    rounds down to 100000000.  With the minimum 8.3 a record with a market
    cap of 8300000000 is dropped, although the decimal 8.3 times 10^9 is
    8300000000: the value of the bound is above 8.3 and the rounded product
    above 8300000000. *)
Lemma market_cap_threshold_is_the_rounded_product :
  let small := Stock.mk "ASX:S" None None (Some (Qc_of_Z 100000000)) None None None in
  let large := Stock.mk "ASX:L" None None (Some (Qc_of_Z 8300000000)) None None None in
  (keeps (withBounds MarketCap (Some (dec 0.1)) None defaultFilters) small = true
   /\ ¬ (dec 0.1 * Qc_of_Z (10 ^ 9) ≤ Qc_of_Z 100000000))
  /\ (keeps (withBounds MarketCap (Some (dec 8.3)) None defaultFilters) large = false
      /\ Q2Qc 8.3 * Qc_of_Z (10 ^ 9) ≤ Qc_of_Z 8300000000).
Proof.
  repeat split; try (vm_compute; reflexivity).
  - vm_compute. intros H. by apply H.
  - vm_compute. discriminate.
Qed.

(** ** The cascade of the two categorical criteria *)

(** C3. Setting the sector to a value different from the current one gives,
    in the one criteria object handed to [onFilterChange], the new sector
    together with the industry "Any"; the numeric bounds are kept. *)
Theorem sector_change_resets_industry
    (filters : FilterCriteria.t) (S2 : string) :
  S2 <> FilterCriteria.sector filters ->
  let next := updateFilter filters FilterCriteria.Ksector S2 in
  FilterCriteria.sector next = S2
  /\ FilterCriteria.industry next = "Any"
  /\ forall a, minBound a next = minBound a filters
               /\ maxBound a next = maxBound a filters.
Proof.
  intros Hne. unfold updateFilter.
  apply String.eqb_neq in Hne. rewrite Hne. simpl.
  repeat split; by destruct a.
Qed.

Lemma sector_change_resets_industry_witness :
  let filters := FilterCriteria.mk "Tech" "Software" None None None None None None in
  "Energy" <> FilterCriteria.sector filters
  /\ FilterCriteria.industry (updateFilter filters FilterCriteria.Ksector "Energy")
     = "Any".
Proof.
  split; [discriminate |].
  apply (sector_change_resets_industry
           (FilterCriteria.mk "Tech" "Software" None None None None None None)
           "Energy").
  discriminate.
Defined.

(** ** The rating classifier *)

(** C6. A non-null score gets exactly one of the five labels, by half-open
    bands: at least 0.5 "Strong Buy"; from 0.1 up to 0.5 "Buy"; from -0.1 up
    to 0.1 "Neutral"; from -0.5 up to -0.1 "Sell"; below -0.5 "Strong Sell".
    In particular 0.5 is "Strong Buy", 0.4999 is "Buy", -0.1 is "Neutral" and
    -0.1000001 is "Sell".  A null score gets no label. *)
Theorem rating_bands :
  (forall score, exists label, getRatingLabel (Some score) = Some label)
  /\ (forall score,
        getRatingLabel (Some score) = Some StrongBuy <-> dec 0.5 ≤ score)
  /\ (forall score,
        getRatingLabel (Some score) = Some Buy <-> dec 0.1 ≤ score < dec 0.5)
  /\ (forall score,
        getRatingLabel (Some score) = Some Neutral <-> dec (-0.1) ≤ score < dec 0.1)
  /\ (forall score,
        getRatingLabel (Some score) = Some Sell <-> dec (-0.5) ≤ score < dec (-0.1))
  /\ (forall score,
        getRatingLabel (Some score) = Some StrongSell <-> score < dec (-0.5))
  /\ getRatingLabel (Some (dec 0.5)) = Some StrongBuy
  /\ getRatingLabel (Some (dec 0.4999)) = Some Buy
  /\ getRatingLabel (Some (dec (-0.1))) = Some Neutral
  /\ getRatingLabel (Some (dec (-0.1000001))) = Some Sell
  /\ getRatingLabel None = None.
Proof.
  split; [| repeat split];
    try (match goal with
         | |- getRatingLabel _ = _ => vm_compute; reflexivity
         end);
    intros; unfold getRatingLabel, geb in *; dec_values;
    repeat case_bool_decide; try discriminate; eauto;
    repeat match goal with H : _ /\ _ |- _ => destruct H end;
    try done; qc_order.
Qed.

(** ** The column menu *)

Lemma toggleVisibility_lookup (column : Column.t) (value : bool)
    (visibility : VisibilityState) (k : string) :
  toggleVisibility column value visibility !! k
  = if getCanHide column && String.eqb (Column.id column) k
    then Some value else visibility !! k.
Proof.
  unfold toggleVisibility. destruct (getCanHide column); simpl; [| done].
  destruct (String.eqb_spec (Column.id column) k) as [-> | Hne].
  - apply lookup_insert_eq.
  - by apply lookup_insert_ne.
Qed.

Lemma toggle_fold_lookup (cols : list Column.t) (value : bool)
    (visibility : VisibilityState) (k : string) :
  foldl
    (fun vis col =>
       if negb (String.eqb (Column.id col) "ticker")
       then toggleVisibility col value vis
       else vis)
    visibility cols !! k
  = if reaches cols k then Some value else visibility !! k.
Proof.
  revert visibility. induction cols as [| col cols IH]; intros visibility; [done |].
  simpl. rewrite IH. destruct (reaches cols k); [by rewrite orb_true_r |].
  rewrite orb_false_r.
  destruct (String.eqb (Column.id col) "ticker"); simpl; [done |].
  apply toggleVisibility_lookup.
Qed.

(** No column of the menu is the ticker column: its definition says
    [enableHiding: false], so the filter of [allColumns] leaves it out. *)
Lemma allColumns_without_ticker (column : Column.t) :
  column ∈ allColumns -> Column.id column <> "ticker".
Proof.
  assert (Hall : forallb (fun col => negb (String.eqb (Column.id col) "ticker"))
                   allColumns = true) by (vm_compute; reflexivity).
  intros Hin Heq. rewrite forallb_forall in Hall.
  apply list_elem_of_In, Hall in Hin. apply negb_true_iff, String.eqb_neq in Hin.
  done.
Qed.

Lemma reaches_ticker : reaches allColumns "ticker" = false.
Proof. vm_compute. reflexivity. Qed.

Lemma reaches_hideable (column : Column.t) :
  column ∈ getAllColumns columns ->
  getCanHide column = true ->
  Column.id column <> "ticker" ->
  reaches allColumns (Column.id column) = true.
Proof.
  intros Hin Hhide Hne. unfold reaches. apply existsb_exists.
  exists column. split.
  - unfold allColumns. apply filter_In. split; [by apply list_elem_of_In | done].
  - rewrite Hhide, String.eqb_refl. apply String.eqb_neq in Hne. by rewrite Hne.
Qed.

Lemma getColumn_ticker : getColumn "ticker" = None.
Proof. vm_compute. reflexivity. Qed.

#[local] Opaque allColumns columns.

Lemma menuStep_ticker (visibility : VisibilityState) (a : MenuAction) :
  menuStep visibility a !! "ticker" = visibility !! "ticker".
Proof.
  destruct a as [| | columnId checked]; unfold menuStep.
  - unfold clickAll, toggleAll. rewrite toggle_fold_lookup, reaches_ticker.
    reflexivity.
  - unfold clickNone, toggleAll. rewrite toggle_fold_lookup, reaches_ticker.
    reflexivity.
  - unfold onCheckedChange, getColumn.
    destruct (List.find _ allColumns) as [column |] eqn:Hfind; [| reflexivity].
    apply find_some in Hfind. destruct Hfind as [Hin _].
    apply list_elem_of_In, allColumns_without_ticker in Hin.
    rewrite toggleVisibility_lookup.
    apply String.eqb_neq in Hin. rewrite Hin, andb_false_r. reflexivity.
Qed.

Lemma initialVisibility_ticker : initialVisibility columns !! "ticker" = Some true.
Proof. vm_compute. reflexivity. Qed.

Lemma visibility_run_ticker (actions : list MenuAction) (visibility : VisibilityState) :
  foldl menuStep visibility actions !! "ticker" = visibility !! "ticker".
Proof.
  revert visibility. induction actions as [| a actions IH]; intros visibility.
  - reflexivity.
  - cbn [foldl]. rewrite IH. apply menuStep_ticker.
Qed.

(** C9. The ticker column is visible in every state the menu can reach from
    the initial state of the table; a toggle request on it changes nothing;
    "All" and "None" set the entry of every other hideable column to true
    and to false, and leave the entry of the ticker column as it is. *)
Theorem ticker_column_stays_visible :
  (forall actions, visibilityAfter actions !! "ticker" = Some true)
  /\ (forall visibility checked,
        onCheckedChange "ticker" checked visibility = visibility)
  /\ (forall visibility,
        clickAll visibility !! "ticker" = visibility !! "ticker"
        /\ clickNone visibility !! "ticker" = visibility !! "ticker")
  /\ (forall visibility column,
        column ∈ getAllColumns columns ->
        getCanHide column = true ->
        Column.id column <> "ticker" ->
        clickAll visibility !! Column.id column = Some true
        /\ clickNone visibility !! Column.id column = Some false).
Proof.
  split; [| split; [| split]].
  - intros actions. unfold visibilityAfter.
    rewrite visibility_run_ticker. apply initialVisibility_ticker.
  - intros visibility checked. unfold onCheckedChange.
    rewrite getColumn_ticker. reflexivity.
  - intros visibility. split.
    + apply (menuStep_ticker visibility All).
    + apply (menuStep_ticker visibility NoneOfThem).
  - intros visibility column Hin Hhide Hne.
    unfold clickAll, clickNone, toggleAll.
    rewrite !toggle_fold_lookup, (reaches_hideable column Hin Hhide Hne).
    split; reflexivity.
Qed.

(** ** Pagination *)








(** ** Sorting *)

Lemma insertSorted_Permutation {A : Type} (compare : A -> A -> Z) (x : A) (l : list A) :
  insertSorted compare x l ≡ₚ x :: l.
Proof.
  induction l as [| y l IH]; [done |]. simpl.
  case_bool_decide; [done |]. rewrite IH. apply Permutation_swap.
Qed.

Lemma arraySort_Permutation {A : Type} (compare : A -> A -> Z) (l : list A) :
  arraySort compare l ≡ₚ l.
Proof.
  unfold arraySort. induction l as [| x l IH]; [done |].
  simpl. by rewrite insertSorted_Permutation, IH.
Qed.

(** Insertion keeps a list sorted, for a comparator that decides the order
    on the elements at hand. *)
Lemma insertSorted_sorted {A : Type}
    (compare : A -> A -> Z) (R : relation A) (P : A -> Prop) :
  Transitive R ->
  (forall a b, P a -> P b -> (compare a b < 0)%Z -> R a b) ->
  (forall a b, P a -> P b -> ~ (compare a b < 0)%Z -> R b a) ->
  forall x l, P x -> Forall P l ->
  StronglySorted R l -> StronglySorted R (insertSorted compare x l).
Proof.
  intros Htrans Hlt Hge x l Hx HP Hsorted.
  induction Hsorted as [| y l Hsorted IH Hall]; simpl.
  - repeat constructor.
  - apply Forall_cons in HP as [Hy HP].
    case_bool_decide as Hc.
    + constructor; [by constructor |].
      constructor; [by apply Hlt |].
      eapply Forall_impl; [exact Hall |].
      intros z Hz. trans y; [by apply Hlt | done].
    + constructor; [by apply IH |].
      rewrite insertSorted_Permutation. constructor; [by apply Hge | done].
Qed.

Lemma arraySort_sorted {A : Type}
    (compare : A -> A -> Z) (R : relation A) (P : A -> Prop) :
  Transitive R ->
  (forall a b, P a -> P b -> (compare a b < 0)%Z -> R a b) ->
  (forall a b, P a -> P b -> ~ (compare a b < 0)%Z -> R b a) ->
  forall l, Forall P l -> StronglySorted R (arraySort compare l).
Proof.
  intros Htrans Hlt Hge l HP. unfold arraySort.
  induction HP as [| x l Hx HP IH]; simpl; [constructor |].
  apply (insertSorted_sorted compare R P); try done.
  change (Forall P (arraySort compare l)). by rewrite arraySort_Permutation.
Qed.

(** In a sorted list the earlier of two elements is related to the later. *)
Lemma sorted_lookup {A : Type} (R : relation A) (l : list A) (i j : nat) (a b : A) :
  StronglySorted R l ->
  l !! i = Some a -> l !! j = Some b -> (i < j)%nat -> R a b.
Proof.
  intros Hsorted. revert i j.
  induction Hsorted as [| x l _ IH Hall]; intros i j Hi Hj Hij; [done |].
  destruct j as [| j]; [lia |]. simpl in Hj.
  destruct i as [| i]; simpl in Hi.
  - injection Hi as ->. rewrite Forall_forall in Hall.
    apply Hall. by apply list_elem_of_lookup_2 with j.
  - apply (IH i j); [done | done | lia].
Qed.

Lemma lookup_sorted {A : Type} (R : relation A) (l : list A) :
  (forall i j a b, l !! i = Some a -> l !! j = Some b -> (i < j)%nat -> R a b) ->
  StronglySorted R l.
Proof.
  induction l as [| x l IH]; intros H; constructor.
  - apply IH. intros i j a b Hi Hj Hij. apply (H (S i) (S j)); [done | done | lia].
  - apply Forall_forall. intros y Hy.
    apply list_elem_of_lookup_1 in Hy. destruct Hy as [j Hj].
    apply (H 0%nat (S j)); [done | done | lia].
Qed.

Lemma getCoreRowModel_original (data : list Stock.t) :
  TableRow.original <$> getCoreRowModel data = data.
Proof.
  unfold getCoreRowModel. rewrite fmap_imap.
  rewrite (imap_ext _ (const id)) by done.
  rewrite imap_const. apply list_fmap_id.
Qed.

Lemma getCoreRowModel_index (data : list Stock.t) :
  TableRow.index <$> getCoreRowModel data = seq 0 (length data).
Proof.
  unfold getCoreRowModel. rewrite fmap_imap.
  rewrite (imap_ext _ (fun j _ => id j)) by done.
  rewrite imap_seq_0. apply list_fmap_id.
Qed.

Lemma core_row_original (data : list Stock.t) (row : TableRow.t) :
  row ∈ getCoreRowModel data -> TableRow.original row ∈ data.
Proof.
  intros Hin.
  apply (list_elem_of_fmap_2 TableRow.original) in Hin.
  by rewrite getCoreRowModel_original in Hin.
Qed.

(** The rows of one table have different indices. *)
Lemma rows_index_distinct (data : list Stock.t) (rows : list TableRow.t)
    (i j : nat) (a b : TableRow.t) :
  rows ≡ₚ getCoreRowModel data ->
  rows !! i = Some a -> rows !! j = Some b -> i <> j ->
  TableRow.index a <> TableRow.index b.
Proof.
  intros Hperm Hi Hj Hij Heq. apply Hij.
  apply (NoDup_lookup (TableRow.index <$> rows) i j (TableRow.index a)).
  - rewrite Hperm, getCoreRowModel_index. apply NoDup_seq.
  - by rewrite list_lookup_fmap, Hi.
  - by rewrite list_lookup_fmap, Hj, Heq.
Qed.

(** Where no null meets a 0, the number a row is ordered by determines its
    value. *)
Lemma keys_determine_values (attribute : Stock.t -> option Qc) (data : list Stock.t) :
  mixesNullAndZero attribute data = false ->
  forall x y, x ∈ data -> y ∈ data ->
  toNumber (attribute x) = toNumber (attribute y) -> attribute x = attribute y.
Proof.
  intros Hmix.
  assert (Hno : forall x y, x ∈ data -> y ∈ data ->
                attribute x = None -> attribute y = Some 0 -> False).
  { intros x y Hx Hy Hnull Hzero.
    unfold mixesNullAndZero in Hmix. apply andb_false_iff in Hmix.
    destruct Hmix as [Hmix | Hmix];
      apply not_true_iff_false in Hmix; apply Hmix, existsb_exists.
    - exists x. split; [by apply list_elem_of_In | by apply bool_decide_eq_true_2].
    - exists y. split; [by apply list_elem_of_In | by apply bool_decide_eq_true_2]. }
  intros x y Hx Hy Hkey.
  destruct (attribute x) as [v |] eqn:Hvx, (attribute y) as [w |] eqn:Hvy;
    simpl in Hkey; [by rewrite Hkey | | | done].
  - exfalso. apply (Hno y x); [done | done | done |]. by rewrite Hvx, Hkey.
  - exfalso. apply (Hno x y); [done | done | done |]. by rewrite Hvy, <- Hkey.
Qed.

Lemma keyOrder_trans (desc : bool) : Transitive (keyOrder desc).
Proof.
  intros a b c. destruct desc; simpl; unfold flip; intros H1 H2;
    by apply Qcle_trans with b.
Qed.

Lemma keyOrder_antisym (desc : bool) (a b : Qc) :
  keyOrder desc a b -> keyOrder desc b a -> a = b.
Proof. destruct desc; simpl; unfold flip; intros H1 H2; by apply Qcle_antisym. Qed.

Lemma keyBefore_trans (desc : bool) (a b c : Qc) :
  keyBefore desc a b -> keyBefore desc b c -> keyBefore desc a c.
Proof.
  destruct desc; simpl; intros H1 H2.
  - by apply Qclt_trans with b.
  - by apply Qclt_trans with b.
Qed.

Lemma keyBefore_keyOrder (desc : bool) (a b : Qc) :
  keyBefore desc a b -> keyOrder desc a b.
Proof. destruct desc; simpl; unfold flip; apply Qclt_le_weak. Qed.

Lemma keyBefore_irrefl (desc : bool) (a : Qc) : ~ keyBefore desc a a.
Proof. destruct desc; simpl; intros H; by apply Qclt_not_eq in H. Qed.

Lemma keyBefore_asym (desc : bool) (a b : Qc) :
  keyBefore desc a b -> keyBefore desc b a -> False.
Proof.
  intros H1 H2. apply (keyBefore_irrefl desc a). by apply keyBefore_trans with b.
Qed.

Lemma keyBefore_total (desc : bool) (a b : Qc) :
  a <> b -> keyBefore desc a b \/ keyBefore desc b a.
Proof.
  intros Hne. destruct (Qc_dec a b) as [[Hlt | Hgt] | Heq]; [| | done];
    destruct desc; simpl; auto.
Qed.

Section sorting.
Variable attribute : Stock.t -> option Qc.
Variable desc : bool.

Lemma rowNotAfter_trans : Transitive (rowNotAfter attribute desc).
Proof.
  intros a b c. unfold rowNotAfter, sortKey.
  intros [H1 | [E1 I1]] [H2 | [E2 I2]].
  - left. by apply keyBefore_trans with (toNumber (attribute (TableRow.original b))).
  - left. by rewrite <- E2.
  - left. by rewrite E1.
  - right. split; [congruence | lia].
Qed.

Lemma rowNotAfter_keyOrder (a b : TableRow.t) :
  rowNotAfter attribute desc a b ->
  keyOrder desc (sortKey attribute a) (sortKey attribute b).
Proof.
  unfold rowNotAfter, sortKey. intros [H | [E _]].
  - by apply keyBefore_keyOrder.
  - rewrite E. destruct desc; simpl; unfold flip; apply Qcle_refl.
Qed.

(** What the comparator answers, for two rows whose values differ when the
    numbers they are ordered by differ. *)
Lemma sortCompare_cases (a b : TableRow.t) :
  (sortKey attribute a = sortKey attribute b ->
   attribute (TableRow.original a) = attribute (TableRow.original b)) ->
  (attribute (TableRow.original a) = attribute (TableRow.original b)
   /\ sortCompare attribute desc a b
      = (Z.of_nat (TableRow.index a) - Z.of_nat (TableRow.index b))%Z)
  \/ (keyBefore desc (sortKey attribute a) (sortKey attribute b)
      /\ sortCompare attribute desc a b = (-1)%Z)
  \/ (keyBefore desc (sortKey attribute b) (sortKey attribute a)
      /\ sortCompare attribute desc a b = 1%Z).
Proof.
  intros Hkeys. unfold sortCompare, compareBasic, gtb, sortKey in *.
  destruct (decide (attribute (TableRow.original a) = attribute (TableRow.original b)))
    as [Heq | Hne].
  - left. split; [done |]. by rewrite (bool_decide_eq_true_2 _ Heq).
  - right. rewrite (bool_decide_eq_false_2 _ Hne).
    assert (Hk : toNumber (attribute (TableRow.original a))
                 <> toNumber (attribute (TableRow.original b))) by auto.
    destruct (Qc_dec (toNumber (attribute (TableRow.original a)))
                     (toNumber (attribute (TableRow.original b))))
      as [[Hlt | Hgt] | Heq]; [| | done].
    + rewrite (bool_decide_eq_false_2 _ (Qcle_not_lt _ _ (Qclt_le_weak _ _ Hlt))).
      destruct desc; simpl; auto.
    + rewrite (bool_decide_eq_true_2 _ Hgt).
      destruct desc; simpl; auto.
Qed.

Lemma sortCompare_lt (a b : TableRow.t) :
  (sortKey attribute a = sortKey attribute b ->
   attribute (TableRow.original a) = attribute (TableRow.original b)) ->
  (sortCompare attribute desc a b < 0)%Z -> rowNotAfter attribute desc a b.
Proof.
  intros Hkeys Hlt. unfold rowNotAfter.
  destruct (sortCompare_cases a b Hkeys) as [[E Hc] | [[Hb Hc] | [Hb Hc]]];
    rewrite Hc in Hlt.
  - right. split; [done | lia].
  - by left.
  - lia.
Qed.

Lemma sortCompare_ge (a b : TableRow.t) :
  (sortKey attribute a = sortKey attribute b ->
   attribute (TableRow.original a) = attribute (TableRow.original b)) ->
  ~ (sortCompare attribute desc a b < 0)%Z -> rowNotAfter attribute desc b a.
Proof.
  intros Hkeys Hge. unfold rowNotAfter.
  destruct (sortCompare_cases a b Hkeys) as [[E Hc] | [[Hb Hc] | [Hb Hc]]];
    rewrite Hc in Hge.
  - right. split; [done | lia].
  - lia.
  - by left.
Qed.

(** The sorted rows are in the order of the number they are ordered by,
    and in the order of the data among rows with the same value. *)
Lemma arraySort_rows_sorted (data : list Stock.t) :
  mixesNullAndZero attribute data = false ->
  StronglySorted (rowNotAfter attribute desc)
    (arraySort (sortCompare attribute desc) (getCoreRowModel data)).
Proof.
  intros Hmix.
  apply (arraySort_sorted _ _ (fun row => TableRow.original row ∈ data)).
  - apply rowNotAfter_trans.
  - intros a b Ha Hb. apply sortCompare_lt.
    by apply (keys_determine_values attribute data Hmix).
  - intros a b Ha Hb. apply sortCompare_ge.
    by apply (keys_determine_values attribute data Hmix).
  - apply (Forall_fmap TableRow.original (fun stock => stock ∈ data)).
    rewrite getCoreRowModel_original. by apply Forall_forall.
Qed.

Lemma sorted_keys (rows : list TableRow.t) :
  StronglySorted (rowNotAfter attribute desc) rows ->
  StronglySorted (keyOrder desc) (sortKey attribute <$> rows).
Proof. apply StronglySorted_fmap, rowNotAfter_keyOrder. Qed.

Lemma sorted_values (rows : list TableRow.t) :
  StronglySorted (rowNotAfter attribute desc) rows ->
  StronglySorted (keyOrder desc) (valuesOf attribute (TableRow.original <$> rows)).
Proof.
  unfold valuesOf.
  induction 1 as [| row rows _ IH Hall]; [constructor |].
  csimpl. destruct (attribute (TableRow.original row)) as [v |] eqn:Hv; [| done].
  constructor; [done |].
  apply Forall_forall. intros w Hw.
  apply list_elem_of_omap in Hw. destruct Hw as (r & Hr & Hrw).
  apply list_elem_of_fmap in Hr. destruct Hr as (row' & -> & Hrow').
  rewrite Forall_forall in Hall. specialize (Hall row' Hrow').
  apply rowNotAfter_keyOrder in Hall. unfold sortKey in Hall.
  by rewrite Hv, Hrw in Hall.
Qed.

(** Two rows of a sorted table, the upper one first. *)
Lemma sorted_rows_lookup (data : list Stock.t) (rows : list TableRow.t)
    (i j : nat) (a b : TableRow.t) :
  rows ≡ₚ getCoreRowModel data ->
  StronglySorted (rowNotAfter attribute desc) rows ->
  rows !! i = Some a -> rows !! j = Some b -> (i < j)%nat ->
  keyBefore desc (sortKey attribute a) (sortKey attribute b)
  \/ (attribute (TableRow.original a) = attribute (TableRow.original b)
      /\ (TableRow.index a < TableRow.index b)%nat).
Proof.
  intros Hperm Hsorted Hi Hj Hij.
  destruct (sorted_lookup _ rows i j a b Hsorted Hi Hj Hij) as [H | [E Hle]];
    [by left | right].
  split; [done |].
  assert (TableRow.index a <> TableRow.index b)
    by (apply (rows_index_distinct data rows i j); [done | done | done | lia]).
  lia.
Qed.

(** A row with a smaller number (a greater one, when descending) stands
    higher in a sorted table. *)
Lemma sorted_rows_position (data : list Stock.t) (rows : list TableRow.t)
    (i j : nat) (a b : TableRow.t) :
  rows ≡ₚ getCoreRowModel data ->
  StronglySorted (rowNotAfter attribute desc) rows ->
  rows !! i = Some a -> rows !! j = Some b ->
  keyBefore desc (sortKey attribute a) (sortKey attribute b) ->
  (i < j)%nat.
Proof.
  intros Hperm Hsorted Hi Hj Hab.
  destruct (decide (i < j)%nat) as [| Hnlt]; [done | exfalso].
  destruct (decide (i = j)) as [-> | Hne].
  - rewrite Hi in Hj. injection Hj as ->. by apply keyBefore_irrefl in Hab.
  - assert (Hji : (j < i)%nat) by lia.
    destruct (sorted_rows_lookup data rows j i b a Hperm Hsorted Hj Hi Hji)
      as [Hba | [E _]].
    + by apply (keyBefore_asym desc (sortKey attribute a) (sortKey attribute b)).
    + unfold sortKey in Hab. rewrite E in Hab. by apply keyBefore_irrefl in Hab.
Qed.

(** The sorted table is the only arrangement of the rows in which the
    comparator never puts a lower row before an upper one: whatever way the
    engine sorts, the result is the one computed by insertion. *)
Lemma sorted_rows_determined (data : list Stock.t) (rows : list TableRow.t) :
  mixesNullAndZero attribute data = false ->
  rows ≡ₚ getCoreRowModel data ->
  (forall i j a b,
     rows !! i = Some a -> rows !! j = Some b -> (i < j)%nat ->
     (sortCompare attribute desc a b <= 0)%Z) ->
  getSortedRowModel attribute desc data = Some rows.
Proof.
  intros Hmix Hperm Hrows.
  assert (Hkeys : forall a b, a ∈ rows -> b ∈ rows ->
            sortKey attribute a = sortKey attribute b ->
            attribute (TableRow.original a) = attribute (TableRow.original b)).
  { intros a b Ha Hb. rewrite Hperm in Ha, Hb.
    apply (keys_determine_values attribute data Hmix); by apply core_row_original. }
  unfold getSortedRowModel. rewrite Hmix. f_equal.
  apply (StronglySorted_unique_strong (rowNotAfter attribute desc)).
  - intros a b Ha Hb Hab Hba.
    rewrite arraySort_Permutation, <- Hperm in Ha.
    apply list_elem_of_lookup_1 in Ha, Hb.
    destruct Ha as [i Hi], Hb as [j Hj].
    destruct (decide (i = j)) as [-> | Hij]; [congruence | exfalso].
    pose proof (rows_index_distinct data rows i j a b Hperm Hi Hj Hij) as Hne.
    destruct Hab as [Hab | [E1 Hab]], Hba as [Hba | [E2 Hba]].
    + by apply (keyBefore_asym desc (sortKey attribute a) (sortKey attribute b)).
    + unfold sortKey in Hab. rewrite E2 in Hab. by apply keyBefore_irrefl in Hab.
    + unfold sortKey in Hba. rewrite E1 in Hba. by apply keyBefore_irrefl in Hba.
    + lia.
  - by apply arraySort_rows_sorted.
  - apply lookup_sorted. intros i j a b Hi Hj Hij.
    specialize (Hrows i j a b Hi Hj Hij).
    assert (Ha : a ∈ rows) by (by apply list_elem_of_lookup_2 with i).
    assert (Hb : b ∈ rows) by (by apply list_elem_of_lookup_2 with j).
    destruct (sortCompare_cases a b (Hkeys a b Ha Hb))
      as [[E Hc] | [[Hk Hc] | [Hk Hc]]]; rewrite Hc in Hrows.
    + right. split; [done | lia].
    + by left.
    + lia.
  - by rewrite arraySort_Permutation.
Qed.

End sorting.

Lemma valuesOf_nonNullRows (attribute : Stock.t -> option Qc) (rows : list Stock.t) :
  valuesOf attribute (nonNullRows attribute rows) = valuesOf attribute rows.
Proof.
  unfold valuesOf, nonNullRows, hasValue.
  induction rows as [| row rows IH]; [done |].
  cbn [List.filter]. destruct (attribute row) as [v |] eqn:Hv.
  - rewrite bool_decide_eq_true_2 by eauto.
    change (omap attribute (row :: ?l))
      with (match attribute row with
            | Some w => w :: omap attribute l
            | None => omap attribute l
            end).
    rewrite Hv. f_equal. exact IH.
  - rewrite bool_decide_eq_false_2 by (by intros [? ?]).
    change (omap attribute (row :: rows))
      with (match attribute row with
            | Some w => w :: omap attribute rows
            | None => omap attribute rows
            end).
    rewrite Hv. exact IH.
Qed.

Lemma descending_values_unique (values1 values2 : list Qc) :
  Sorted (keyOrder true) values1 -> Sorted (keyOrder true) values2 ->
  values1 ≡ₚ values2 -> values1 = values2.
Proof.
  apply @Sorted_unique.
  - apply keyOrder_trans.
  - intros a b. apply keyOrder_antisym.
Qed.

(** C2, amended.  For every list of records and every numeric attribute
    (given by its accessor) that is not null for one record and 0 for
    another, with the defaults of the table library: the ascending and the
    descending table hold the rows of the data, ordered by the value with
    null counted as 0, and rows of equal value in the order of the data, in both
    directions.  The numbers the rows are ordered by, and the values of the
    rows with a value, read in descending order are those of the ascending
    order reversed.  A row without a value is not last: it stands where a 0
    would, above the positive values in ascending order and above the
    negative values in descending order. *)
Theorem sort_orders_by_value_with_null_as_zero
    (attribute : Stock.t -> option Qc) (data : list Stock.t) :
  mixesNullAndZero attribute data = false ->
  exists ascending descending : list TableRow.t,
    getSortedRowModel attribute false data = Some ascending
    /\ getSortedRowModel attribute true data = Some descending
    /\ ascending ≡ₚ getCoreRowModel data
    /\ descending ≡ₚ getCoreRowModel data
    /\ (forall (i j : nat) (a b : TableRow.t),
          ascending !! i = Some a -> ascending !! j = Some b -> (i < j)%nat ->
          sortKey attribute a < sortKey attribute b
          \/ (attribute (TableRow.original a) = attribute (TableRow.original b)
              /\ (TableRow.index a < TableRow.index b)%nat))
    /\ (forall (i j : nat) (a b : TableRow.t),
          descending !! i = Some a -> descending !! j = Some b -> (i < j)%nat ->
          sortKey attribute b < sortKey attribute a
          \/ (attribute (TableRow.original a) = attribute (TableRow.original b)
              /\ (TableRow.index a < TableRow.index b)%nat))
    /\ sortKey attribute <$> descending = reverse (sortKey attribute <$> ascending)
    /\ valuesOf attribute (nonNullRows attribute (TableRow.original <$> descending))
       = reverse (valuesOf attribute (nonNullRows attribute (TableRow.original <$> ascending)))
    /\ (forall (i j : nat) (a b : TableRow.t) (v : Qc),
          ascending !! i = Some a -> ascending !! j = Some b ->
          attribute (TableRow.original a) = None ->
          attribute (TableRow.original b) = Some v -> 0 < v -> (i < j)%nat)
    /\ (forall (i j : nat) (a b : TableRow.t) (v : Qc),
          descending !! i = Some a -> descending !! j = Some b ->
          attribute (TableRow.original a) = None ->
          attribute (TableRow.original b) = Some v -> v < 0 -> (i < j)%nat).
Proof.
  intros Hmix.
  set (ascending := arraySort (sortCompare attribute false) (getCoreRowModel data)).
  set (descending := arraySort (sortCompare attribute true) (getCoreRowModel data)).
  assert (Ha : ascending ≡ₚ getCoreRowModel data) by apply arraySort_Permutation.
  assert (Hd : descending ≡ₚ getCoreRowModel data) by apply arraySort_Permutation.
  assert (Hsa : StronglySorted (rowNotAfter attribute false) ascending)
    by (by apply arraySort_rows_sorted).
  assert (Hsd : StronglySorted (rowNotAfter attribute true) descending)
    by (by apply arraySort_rows_sorted).
  exists ascending, descending.
  split; [unfold getSortedRowModel; by rewrite Hmix |].
  split; [unfold getSortedRowModel; by rewrite Hmix |].
  split; [done |].
  split; [done |].
  split; [intros i j a b; by apply (sorted_rows_lookup attribute false data) |].
  split; [intros i j a b; by apply (sorted_rows_lookup attribute true data) |].
  split.
  { apply descending_values_unique.
    - by apply StronglySorted_Sorted, sorted_keys.
    - apply Sorted_reverse, StronglySorted_Sorted.
      by apply (sorted_keys attribute false).
    - by rewrite reverse_Permutation, Ha, Hd. }
  split.
  { rewrite !valuesOf_nonNullRows. apply descending_values_unique.
    - by apply StronglySorted_Sorted, sorted_values.
    - apply Sorted_reverse, StronglySorted_Sorted.
      by apply (sorted_values attribute false).
    - unfold valuesOf. by rewrite reverse_Permutation, Ha, Hd. }
  split.
  - intros i j a b v Hi Hj Hnull Hv Hpos.
    apply (sorted_rows_position attribute false data ascending i j a b);
      try done.
    unfold sortKey. by rewrite Hnull, Hv.
  - intros i j a b v Hi Hj Hnull Hv Hneg.
    apply (sorted_rows_position attribute true data descending i j a b);
      try done.
    unfold sortKey. by rewrite Hnull, Hv.
Qed.

Lemma sort_orders_by_value_with_null_as_zero_witness :
  mixesNullAndZero Stock.market_cap_basic [recordA; recordB; recordC] = false
  /\ exists ascending descending : list TableRow.t,
       getSortedRowModel Stock.market_cap_basic false [recordA; recordB; recordC]
       = Some ascending
       /\ getSortedRowModel Stock.market_cap_basic true [recordA; recordB; recordC]
          = Some descending
       /\ sortKey Stock.market_cap_basic <$> descending
          = reverse (sortKey Stock.market_cap_basic <$> ascending).
Proof.
  assert (Hmix : mixesNullAndZero Stock.market_cap_basic [recordA; recordB; recordC]
                 = false) by (vm_compute; reflexivity).
  split; [exact Hmix |].
  destruct (sort_orders_by_value_with_null_as_zero
              Stock.market_cap_basic [recordA; recordB; recordC] Hmix)
    as (ascending & descending & Hasc & Hdesc & _ & _ & _ & _ & Hkeys & _).
  exists ascending, descending.
  split; [exact Hasc |]. split; [exact Hdesc | exact Hkeys].
Defined.

(** C2 as stated fails: records without a value are not last.  By
    market cap, ascending, the record without market cap comes first.  By change, descending, the
    record without change stands above the one that fell.  And two records
    with the same RSI keep the order of the data in both directions, so
    their order is not reversed. *)
Lemma sorted_nulls_are_not_last :
  Stock.market_cap_basic recordA = None
  /\ sortedRecords Stock.market_cap_basic false [recordA; recordB; recordC]
     = Some [recordA; recordC; recordB]
  /\ sortedRecords Stock.market_cap_basic true [recordA; recordB; recordC]
     = Some [recordB; recordC; recordA]
  /\ Stock.change recordD = None
  /\ sortedRecords Stock.change true [recordA; recordB; recordC; recordD]
     = Some [recordA; recordC; recordD; recordB]
  /\ Stock.RSI recordB = Stock.RSI recordE
  /\ sortedRecords Stock.RSI false [recordB; recordE] = Some [recordB; recordE]
  /\ sortedRecords Stock.RSI true [recordB; recordE] = Some [recordB; recordE].
Proof. repeat split; vm_compute; reflexivity. Qed.

(** ** The end-to-end scenario of the specification *)

Example scenario_sector :
  applyFilters [recordA; recordB; recordC]
    (FilterCriteria.spread defaultFilters FilterCriteria.Ksector "Tech")
  = [recordA; recordB].
Proof. vm_compute. reflexivity. Qed.

Example scenario_sector_and_rsi :
  applyFilters [recordA; recordB; recordC]
    (FilterCriteria.spread
       (FilterCriteria.spread defaultFilters FilterCriteria.Ksector "Tech")
       FilterCriteria.KrsiMin (Some (Qc_of_Z 70)))
  = [recordA].
Proof. vm_compute. reflexivity. Qed.

Example scenario_rsi_alone :
  applyFilters [recordA; recordB; recordC]
    (FilterCriteria.spread defaultFilters FilterCriteria.KrsiMin (Some (Qc_of_Z 70)))
  = [recordA; recordC].
Proof. vm_compute. reflexivity. Qed.

Example scenario_sort_market_cap :
  sortedRecords Stock.market_cap_basic true [recordA; recordB; recordC]
  = Some [recordB; recordC; recordA].
Proof. vm_compute. reflexivity. Qed.

Example scenario_large_cap_preset :
  applyFilters [recordA; recordB; recordC]
    (FilterCriteria.spread defaultFilters FilterCriteria.KmarketCapMin (Some (Qc_of_Z 3)))
  = [recordA; recordB].
Proof. vm_compute. reflexivity. Qed.

(** * Further properties of the code *)

(** ** The filter panel: active criteria *)

Lemma keeps_default (stock : Stock.t) : keeps defaultFilters stock = true.
Proof.
  rewrite keeps_matches. unfold matches, defaultFilters, categoricalOk; simpl.
  by rewrite !rangeOk_unbounded.
Qed.

Lemma applyFilters_default (data : list Stock.t) :
  applyFilters data defaultFilters = data.
Proof.
  unfold applyFilters. induction data as [| stock data IH]; [done |].
  cbn [List.filter]. by rewrite keeps_default, IH.
Qed.

(** X1. "Clear all" is offered exactly when the criteria differ from
    [defaultFilters]; [resetFilters] leads to criteria for which it is not
    offered, and under such criteria [applyFilters] returns its input. *)
Theorem clear_all_offered_iff_not_default (filters : FilterCriteria.t) :
  (hasActiveFilters filters = false <-> filters = defaultFilters)
  /\ hasActiveFilters (resetFilters filters) = false
  /\ (hasActiveFilters filters = false ->
      forall data, applyFilters data filters = data).
Proof.
  assert (Hiff : hasActiveFilters filters = false <-> filters = defaultFilters).
  { destruct filters as [fs fi m1 m2 r1 r2 c1 c2].
    unfold hasActiveFilters, defaultFilters; simpl.
    rewrite !orb_false_iff, !negb_false_iff, !String.eqb_eq.
    split.
    - intros (((((((-> & ->) & H1) & H2) & H3) & H4) & H5) & H6).
      by destruct m1, m2, r1, r2, c1, c2.
    - intros H. by injection H as -> -> -> -> -> -> -> ->. }
  split; [done | split].
  - reflexivity.
  - intros H data. apply Hiff in H. subst filters. apply applyFilters_default.
Qed.

(** X2. The badge count is at most five, it is zero exactly when "Clear
    all" is not offered, and the two bounds of one attribute count once. *)
Theorem active_filter_count_agrees (filters : FilterCriteria.t) :
  (activeFilterCount filters <= 5)%nat
  /\ (activeFilterCount filters = 0%nat <-> hasActiveFilters filters = false)
  /\ (forall a lo hi,
        (activeFilterCount (withBounds a lo hi defaultFilters) <= 1)%nat).
Proof.
  split; [| split].
  - destruct filters as [fs fi m1 m2 r1 r2 c1 c2].
    unfold activeFilterCount; simpl.
    destruct (String.eqb fs "Any"), (String.eqb fi "Any"),
      (notNull m1 || notNull m2), (notNull r1 || notNull r2),
      (notNull c1 || notNull c2); simpl; lia.
  - destruct filters as [fs fi m1 m2 r1 r2 c1 c2].
    unfold activeFilterCount, hasActiveFilters; simpl.
    destruct (String.eqb fs "Any"), (String.eqb fi "Any"),
      m1, m2, r1, r2, c1, c2; simpl; split; (done || lia).
  - intros a lo hi. destruct a, lo, hi; vm_compute; lia.
Qed.

(** ** The filter panel: one update of the criteria *)

(** X3. [updateFilter] is a write to one field: the field reads back the
    value written, and writing back the value a field already has leaves
    the criteria as they are (no industry reset when the sector is set to
    itself). *)
Theorem updateFilter_read_back
    (filters : FilterCriteria.t) (key : FilterCriteria.Key)
    (value : FilterCriteria.Value key) :
  getField (updateFilter filters key value) key = value
  /\ updateFilter filters key (getField filters key) = filters.
Proof.
  split.
  - destruct key; simpl; try done.
    unfold updateFilter. by destruct (negb _).
  - destruct filters as [fs fi m1 m2 r1 r2 c1 c2].
    destruct key; unfold updateFilter; simpl; try done.
    by rewrite String.eqb_refl.
Qed.

(** X4. [updateFilter] leaves every other field alone, with one
    exception: setting the sector also writes the industry, which becomes
    "Any" when the sector changes and is kept when it does not. *)
Theorem updateFilter_touches_one_field
    (filters : FilterCriteria.t) (key : FilterCriteria.Key)
    (value : FilterCriteria.Value key) :
  (forall key',
     key' <> key ->
     (key = FilterCriteria.Ksector -> key' <> FilterCriteria.Kindustry) ->
     getField (updateFilter filters key value) key' = getField filters key')
  /\ (forall S2,
        FilterCriteria.industry (updateFilter filters FilterCriteria.Ksector S2)
        = if String.eqb S2 (FilterCriteria.sector filters)
          then FilterCriteria.industry filters
          else "Any").
Proof.
  split.
  - intros key' Hne Hind.
    destruct key, key'; try done; unfold updateFilter; simpl;
      try (by destruct (negb _)).
    by specialize (Hind eq_refl).
  - intros S2. unfold updateFilter.
    by destruct (String.eqb S2 (FilterCriteria.sector filters)).
Qed.

(** ** The filter panel: the options of the two selectors *)

Lemma setAdd_elem (set : list string) (x y : string) :
  x ∈ setAdd set y <-> x ∈ set \/ x = y.
Proof.
  unfold setAdd. case_bool_decide as Hin.
  - split; [by left | intros [H | ->]; done].
  - rewrite elem_of_app, list_elem_of_singleton. done.
Qed.

Lemma setAdd_NoDup (set : list string) (y : string) :
  NoDup set -> NoDup (setAdd set y).
Proof.
  intros Hnd. unfold setAdd. case_bool_decide as Hin; [done |].
  apply NoDup_app. split; [done |]. split; [| apply NoDup_singleton].
  intros x Hx Hy. apply list_elem_of_singleton in Hy. by subst.
Qed.

Lemma addIfTruthy_elem (set : list string) (o : option string) (x : string) :
  x ∈ addIfTruthy set o <-> x ∈ set \/ (o = Some x /\ x <> "").
Proof.
  unfold addIfTruthy. destruct o as [s |].
  - destruct (String.eqb_spec s "") as [-> | Hne]; simpl.
    + split; [by left | intros [H | [H Hx]]; [done | congruence]].
    + rewrite setAdd_elem. split.
      * intros [H | ->]; [by left | by right].
      * intros [H | [H Hx]]; [by left | right; congruence].
  - split; [by left | intros [H | [H _]]; [done | discriminate]].
Qed.

Lemma addIfTruthy_NoDup (set : list string) (o : option string) :
  NoDup set -> NoDup (addIfTruthy set o).
Proof.
  intros Hnd. unfold addIfTruthy. destruct o as [s |]; [| done].
  destruct (negb _); [by apply setAdd_NoDup | done].
Qed.

(** What a loop that adds to a set leaves in it. *)
Lemma collect_elem
    (step : list string -> Stock.t -> list string) (Q : Stock.t -> string -> Prop)
    (data : list Stock.t) (init : list string) (x : string) :
  (forall set stock y, y ∈ step set stock <-> y ∈ set \/ Q stock y) ->
  x ∈ foldl step init data
  <-> x ∈ init \/ exists stock, stock ∈ data /\ Q stock x.
Proof.
  intros Hstep. revert init.
  induction data as [| stock data IH]; intros init; simpl.
  - split; [by left | intros [H | (stock & Hin & _)]; [done |]].
    by apply elem_of_nil in Hin.
  - rewrite IH, Hstep. split.
    + intros [[H | H] | (s & Hin & HQ)].
      * by left.
      * right. exists stock. split; [left | done].
      * right. exists s. split; [by right | done].
    + intros [H | (s & Hin & HQ)]; [by left; left |].
      apply elem_of_cons in Hin. destruct Hin as [-> | Hin].
      * left. by right.
      * right. by exists s.
Qed.

Lemma collect_NoDup
    (step : list string -> Stock.t -> list string)
    (data : list Stock.t) (init : list string) :
  (forall set stock, NoDup set -> NoDup (step set stock)) ->
  NoDup init -> NoDup (foldl step init data).
Proof.
  intros Hstep. revert init.
  induction data as [| stock data IH]; intros init Hnd; simpl; [done |].
  by apply IH, Hstep.
Qed.

Lemma optionSets_split (data : list Stock.t) :
  optionSets data
  = (foldl (fun set stock => addIfTruthy set (Stock.sector stock)) [] data,
     foldl (fun set stock => addIfTruthy set (Stock.industry stock)) [] data).
Proof.
  unfold optionSets. generalize (@nil string) at 1 3. generalize (@nil string).
  induction data as [| stock data IH]; intros a b; simpl; [done |].
  apply IH.
Qed.

Lemma stringLe_total : Total stringLe.
Proof. intros a b. apply String.leb_total. Qed.

Lemma sortStrings_elem (set : list string) (x : string) :
  x ∈ sortStrings set <-> x ∈ set.
Proof. unfold sortStrings. by rewrite merge_sort_Permutation. Qed.

Lemma sortStrings_sorted (set : list string) :
  NoDup set -> Sorted stringLe (sortStrings set) /\ NoDup (sortStrings set).
Proof.
  intros Hnd. unfold sortStrings. split.
  - apply @Sorted_merge_sort. apply stringLe_total.
  - by rewrite merge_sort_Permutation.
Qed.

Lemma sectors_elem (data : list Stock.t) (x : string) :
  x ∈ sectors data
  <-> x = "Any"
      \/ (x <> "" /\ exists stock, stock ∈ data /\ Stock.sector stock = Some x).
Proof.
  unfold sectors. rewrite elem_of_cons, sortStrings_elem, optionSets_split. simpl.
  rewrite (collect_elem _ (fun stock y => Stock.sector stock = Some y /\ y <> ""))
    by (intros; apply addIfTruthy_elem).
  rewrite elem_of_nil. split.
  - intros [-> | [[] | (stock & Hin & Hs & Hne)]]; [by left |].
    right. split; [done |]. by exists stock.
  - intros [-> | (Hne & stock & Hin & Hs)]; [by left |].
    right. right. by exists stock.
Qed.

Lemma industries_elem (data : list Stock.t) (x : string) :
  x ∈ industries data
  <-> x = "Any"
      \/ (x <> "" /\ exists stock, stock ∈ data /\ Stock.industry stock = Some x).
Proof.
  unfold industries. rewrite elem_of_cons, sortStrings_elem, optionSets_split. simpl.
  rewrite (collect_elem _ (fun stock y => Stock.industry stock = Some y /\ y <> ""))
    by (intros; apply addIfTruthy_elem).
  rewrite elem_of_nil. split.
  - intros [-> | [[] | (stock & Hin & Hs & Hne)]]; [by left |].
    right. split; [done |]. by exists stock.
  - intros [-> | (Hne & stock & Hin & Hs)]; [by left |].
    right. right. by exists stock.
Qed.

(** X5. The sector selector offers "Any" and exactly the non-empty sectors
    of the records; the full industry list offers "Any" and exactly the
    non-empty industries of the records.  A null or empty value is never an
    option. *)
Theorem selectors_offer_the_observed_values (data : list Stock.t) (x : string) :
  (x ∈ sectors data
   <-> x = "Any"
       \/ (x <> "" /\ exists stock, stock ∈ data /\ Stock.sector stock = Some x))
  /\ (x ∈ industries data
      <-> x = "Any"
          \/ (x <> "" /\ exists stock, stock ∈ data /\ Stock.industry stock = Some x)).
Proof. split; [apply sectors_elem | apply industries_elem]. Qed.

Lemma filteredIndustries_elem
    (data : list Stock.t) (filters : FilterCriteria.t) (x : string) :
  FilterCriteria.sector filters <> "Any" ->
  x ∈ filteredIndustries data filters
  <-> x = "Any"
      \/ (x <> ""
          /\ exists stock,
               stock ∈ data
               /\ Stock.sector stock = Some (FilterCriteria.sector filters)
               /\ Stock.industry stock = Some x).
Proof.
  intros Hsector. unfold filteredIndustries.
  apply String.eqb_neq in Hsector. rewrite Hsector.
  rewrite elem_of_cons, sortStrings_elem.
  rewrite (collect_elem _
             (fun stock y =>
                Stock.sector stock = Some (FilterCriteria.sector filters)
                /\ Stock.industry stock = Some y /\ y <> "")).
  - rewrite elem_of_nil. split.
    + intros [-> | [[] | (stock & Hin & Hs & Hi & Hne)]]; [by left |].
      right. split; [done |]. by exists stock.
    + intros [-> | (Hne & stock & Hin & Hs & Hi)]; [by left |].
      right. right. by exists stock.
  - intros set stock y. unfold strict_eq.
    destruct (Stock.sector stock) as [s |].
    + destruct (String.eqb_spec s (FilterCriteria.sector filters)) as [-> | Hne].
      * rewrite addIfTruthy_elem.
        split; [intros [H | [H1 H2]]; [by left | by right]
               | intros [H | (_ & H1 & H2)]; [by left | by right]].
      * split; [by left | intros [H | (H & _)]; [done | congruence]].
    + split; [by left | intros [H | (H & _)]; [done | discriminate]].
Qed.

(** X6. Cascade of the industry selector.  With the sector at "Any" it
    offers the full industry list; with a sector selected it offers "Any"
    and exactly the non-empty industries of the records of that sector; in
    both cases every option is one of the full list. *)
Theorem industry_options_follow_the_sector
    (data : list Stock.t) (filters : FilterCriteria.t) :
  (FilterCriteria.sector filters = "Any" ->
   filteredIndustries data filters = industries data)
  /\ (FilterCriteria.sector filters <> "Any" ->
      forall x,
        x ∈ filteredIndustries data filters
        <-> x = "Any"
            \/ (x <> ""
                /\ exists stock,
                     stock ∈ data
                     /\ Stock.sector stock = Some (FilterCriteria.sector filters)
                     /\ Stock.industry stock = Some x))
  /\ (forall x, x ∈ filteredIndustries data filters -> x ∈ industries data).
Proof.
  split; [| split].
  - intros Hany. unfold filteredIndustries. by rewrite Hany.
  - intros Hsector x. by apply filteredIndustries_elem.
  - intros x Hx.
    destruct (decide (FilterCriteria.sector filters = "Any")) as [Hany | Hsector].
    + unfold filteredIndustries in Hx. by rewrite Hany in Hx.
    + apply (filteredIndustries_elem data filters x Hsector) in Hx.
      apply industries_elem.
      destruct Hx as [-> | (Hne & stock & Hin & _ & Hi)]; [by left |].
      right. split; [done |]. by exists stock.
Qed.

(** X7. Each of the three option lists is "Any" followed by a list
    without duplicates, in the default order of [Array.prototype.sort]:
    ascending by UTF-16 code unit. *)
Theorem option_lists_are_sorted_and_duplicate_free
    (data : list Stock.t) (filters : FilterCriteria.t) (options : list string) :
  options ∈ [sectors data; industries data; filteredIndustries data filters] ->
  exists others,
    options = "Any" :: others /\ Sorted stringLe others /\ NoDup others.
Proof.
  assert (Hs : forall pick,
             NoDup (foldl (fun set stock => addIfTruthy set (pick stock)) [] data)).
  { intros pick. apply collect_NoDup; [| apply NoDup_nil_2].
    intros set stock. apply addIfTruthy_NoDup. }
  rewrite !elem_of_cons, elem_of_nil.
  intros [-> | [-> | [-> | []]]].
  - eexists. split; [reflexivity |]. apply sortStrings_sorted.
    rewrite optionSets_split. apply Hs.
  - eexists. split; [reflexivity |]. apply sortStrings_sorted.
    rewrite optionSets_split. apply Hs.
  - unfold filteredIndustries.
    destruct (String.eqb (FilterCriteria.sector filters) "Any").
    + eexists. split; [reflexivity |]. apply sortStrings_sorted.
      rewrite optionSets_split. apply Hs.
    + eexists. split; [reflexivity |]. apply sortStrings_sorted.
      apply collect_NoDup; [| apply NoDup_nil_2].
      intros set stock Hnd. destruct (strict_eq _ _); [| done].
      by apply addIfTruthy_NoDup.
Qed.

Lemma option_lists_are_sorted_and_duplicate_free_witness :
  sectors [recordA; recordB; recordC]
    ∈ [sectors [recordA; recordB; recordC]; industries [recordA; recordB; recordC];
       filteredIndustries [recordA; recordB; recordC] defaultFilters]
  /\ exists others,
       sectors [recordA; recordB; recordC] = "Any" :: others
       /\ Sorted stringLe others /\ NoDup others.
Proof.
  assert (Hin : sectors [recordA; recordB; recordC]
                ∈ [sectors [recordA; recordB; recordC];
                   industries [recordA; recordB; recordC];
                   filteredIndustries [recordA; recordB; recordC] defaultFilters])
    by (apply elem_of_cons; by left).
  split; [exact Hin |].
  exact (option_lists_are_sorted_and_duplicate_free
           [recordA; recordB; recordC] defaultFilters _ Hin).
Defined.

(** The order is that of the code units, not of the code points: a
    character written with surrogates (here U+1F600, bytes F0 9F 98 80)
    comes before one of the range U+E000 to U+FFFF (here U+FF21, bytes EF
    BC A1), and both after the letters. *)
Example sortStrings_code_unit_order :
  let wide := String (ascii_of_N 239) (String (ascii_of_N 188)
                (String (ascii_of_N 161) "")) in
  let face := String (ascii_of_N 240) (String (ascii_of_N 159)
                (String (ascii_of_N 152) (String (ascii_of_N 128) ""))) in
  sortStrings [wide; "b"; face; "a"] = ["a"; "b"; face; wide].
Proof. vm_compute. reflexivity. Qed.

(** Without numeric bounds only the two categorical checks remain. *)
Lemma keeps_without_bounds (filters : FilterCriteria.t) (stock : Stock.t) :
  (forall a, minBound a filters = None /\ maxBound a filters = None) ->
  keeps filters stock
  = categoricalOk (FilterCriteria.sector filters) (Stock.sector stock)
    && categoricalOk (FilterCriteria.industry filters) (Stock.industry stock).
Proof.
  intros Hb. rewrite keeps_matches. unfold matches.
  destruct (Hb MarketCap) as [H1 H2]. destruct (Hb Rsi) as [H3 H4].
  destruct (Hb ChangePct) as [H5 H6]. simpl in *.
  rewrite H1, H2, H3, H4, H5, H6. simpl.
  by rewrite !rangeOk_unbounded, !andb_true_r.
Qed.

Lemma categoricalOk_same (criterion : string) :
  categoricalOk criterion (Some criterion) = true.
Proof. unfold categoricalOk. rewrite String.eqb_refl. apply orb_true_r. Qed.

Lemma kept_record_in_result
    (data : list Stock.t) (filters : FilterCriteria.t) (stock : Stock.t) :
  stock ∈ data -> keeps filters stock = true -> applyFilters data filters <> [].
Proof.
  intros Hin Hk Hnil.
  assert (Hres : stock ∈ applyFilters data filters).
  { unfold applyFilters. apply list_elem_of_In, filter_In.
    split; [by apply list_elem_of_In | done]. }
  rewrite Hnil in Hres. by apply elem_of_nil in Hres.
Qed.

(** X8. An industry offered by the selector is never a dead end: with no
    numeric bound set, choosing an offered industry other than "Any" leaves
    at least one record. *)
Theorem offered_industry_has_a_record
    (data : list Stock.t) (filters : FilterCriteria.t) (x : string) :
  (forall a, minBound a filters = None /\ maxBound a filters = None) ->
  x ∈ filteredIndustries data filters ->
  x <> "Any" ->
  applyFilters data (updateFilter filters FilterCriteria.Kindustry x) <> [].
Proof.
  intros Hb Hx Hne.
  assert (Hb' : forall a,
             minBound a (updateFilter filters FilterCriteria.Kindustry x) = None
             /\ maxBound a (updateFilter filters FilterCriteria.Kindustry x) = None).
  { intros a. destruct (Hb a) as [H1 H2]. by destruct a. }
  assert (Hstock : exists stock,
             stock ∈ data
             /\ categoricalOk (FilterCriteria.sector filters) (Stock.sector stock) = true
             /\ Stock.industry stock = Some x).
  { destruct (decide (FilterCriteria.sector filters = "Any")) as [Hany | Hsector].
    - unfold filteredIndustries in Hx. rewrite Hany in Hx. simpl in Hx.
      apply industries_elem in Hx.
      destruct Hx as [-> | (_ & stock & Hin & Hi)]; [done |].
      exists stock. split; [done |]. split; [| done].
      unfold categoricalOk. by rewrite Hany.
    - apply (filteredIndustries_elem data filters x Hsector) in Hx.
      destruct Hx as [-> | (_ & stock & Hin & Hs & Hi)]; [done |].
      exists stock. split; [done |]. split; [| done].
      rewrite Hs. apply categoricalOk_same. }
  destruct Hstock as (stock & Hin & Hs & Hi).
  apply (kept_record_in_result data _ stock Hin).
  rewrite (keeps_without_bounds _ stock Hb').
  change (FilterCriteria.sector (updateFilter filters FilterCriteria.Kindustry x))
    with (FilterCriteria.sector filters).
  change (FilterCriteria.industry (updateFilter filters FilterCriteria.Kindustry x))
    with x.
  by rewrite Hs, Hi, categoricalOk_same.
Qed.

Lemma offered_industry_has_a_record_witness :
  let data :=
    [ Stock.mk "ASX:CBA" (Some "Finance") (Some "Banks") None None None None;
      Stock.mk "ASX:BHP" (Some "Minerals") (Some "Mining") None None None None ] in
  let filters := FilterCriteria.spread defaultFilters FilterCriteria.Ksector "Finance" in
  (forall a, minBound a filters = None /\ maxBound a filters = None)
  /\ "Banks" ∈ filteredIndustries data filters
  /\ "Banks" <> "Any"
  /\ applyFilters data (updateFilter filters FilterCriteria.Kindustry "Banks") <> [].
Proof.
  assert (Hb : forall a,
             minBound a (FilterCriteria.spread defaultFilters FilterCriteria.Ksector "Finance")
             = None
             /\ maxBound a (FilterCriteria.spread defaultFilters FilterCriteria.Ksector "Finance")
                = None) by (intros a; by destruct a).
  assert (Hin : "Banks"
                ∈ filteredIndustries
                    [ Stock.mk "ASX:CBA" (Some "Finance") (Some "Banks") None None None None;
                      Stock.mk "ASX:BHP" (Some "Minerals") (Some "Mining") None None None None ]
                    (FilterCriteria.spread defaultFilters FilterCriteria.Ksector "Finance"))
    by (vm_compute; apply elem_of_cons; right; apply elem_of_cons; by left).
  assert (Hne : "Banks" <> "Any") by discriminate.
  split; [exact Hb | split; [exact Hin | split; [exact Hne |]]].
  exact (offered_industry_has_a_record _ _ _ Hb Hin Hne).
Defined.

(** X9. A sector offered by the selector is never a dead end either: with
    no numeric bound set, switching to an offered sector other than "Any"
    leaves at least one record, whatever industry was selected before
    (the switch resets it). *)
Theorem offered_sector_has_a_record
    (data : list Stock.t) (filters : FilterCriteria.t) (x : string) :
  (forall a, minBound a filters = None /\ maxBound a filters = None) ->
  x ∈ sectors data ->
  x <> "Any" ->
  x <> FilterCriteria.sector filters ->
  applyFilters data (updateFilter filters FilterCriteria.Ksector x) <> [].
Proof.
  intros Hb Hx Hne Hchange.
  apply sectors_elem in Hx.
  destruct Hx as [-> | (_ & stock & Hin & Hs)]; [done |].
  apply (kept_record_in_result data _ stock Hin).
  assert (Hupd : updateFilter filters FilterCriteria.Ksector x
                 = FilterCriteria.spread
                     (FilterCriteria.spread filters FilterCriteria.Ksector x)
                     FilterCriteria.Kindustry "Any").
  { unfold updateFilter. apply String.eqb_neq in Hchange. by rewrite Hchange. }
  rewrite Hupd. rewrite keeps_without_bounds.
  - simpl. rewrite Hs. by rewrite categoricalOk_same.
  - intros a. destruct (Hb a) as [H1 H2]. by destruct a.
Qed.

Lemma offered_sector_has_a_record_witness :
  let data :=
    [ Stock.mk "ASX:CBA" (Some "Finance") (Some "Banks") None None None None;
      Stock.mk "ASX:BHP" (Some "Minerals") (Some "Mining") None None None None ] in
  let filters := updateFilter
                   (FilterCriteria.spread defaultFilters FilterCriteria.Ksector "Finance")
                   FilterCriteria.Kindustry "Banks" in
  (forall a, minBound a filters = None /\ maxBound a filters = None)
  /\ "Minerals" ∈ sectors data
  /\ "Minerals" <> "Any"
  /\ "Minerals" <> FilterCriteria.sector filters
  /\ applyFilters data (updateFilter filters FilterCriteria.Ksector "Minerals") <> [].
Proof.
  assert (Hb : forall a,
             minBound a (updateFilter
                           (FilterCriteria.spread defaultFilters FilterCriteria.Ksector "Finance")
                           FilterCriteria.Kindustry "Banks") = None
             /\ maxBound a (updateFilter
                              (FilterCriteria.spread defaultFilters FilterCriteria.Ksector "Finance")
                              FilterCriteria.Kindustry "Banks") = None)
    by (intros a; by destruct a).
  assert (Hin : "Minerals"
                ∈ sectors
                    [ Stock.mk "ASX:CBA" (Some "Finance") (Some "Banks") None None None None;
                      Stock.mk "ASX:BHP" (Some "Minerals") (Some "Mining") None None None None ])
    by (vm_compute; apply elem_of_cons; right; apply elem_of_cons; right;
        apply elem_of_cons; by left).
  assert (Hne : "Minerals" <> "Any") by discriminate.
  assert (Hch : "Minerals"
                <> FilterCriteria.sector
                     (updateFilter
                        (FilterCriteria.spread defaultFilters FilterCriteria.Ksector "Finance")
                        FilterCriteria.Kindustry "Banks")) by discriminate.
  split; [exact Hb | split; [exact Hin | split; [exact Hne | split; [exact Hch |]]]].
  exact (offered_sector_has_a_record _ _ _ Hb Hin Hne Hch).
Defined.

(** ** The filter panel: presets *)

Lemma ten_billion : fmul (Qc_of_Z 10) billion = Qc_of_Z 10000000000.
Proof. apply Qc_is_canon. vm_compute. reflexivity. Qed.

(** X10. What the three criteria presets select.  "Overbought" keeps the
    records with an RSI from 70 to 100, "Oversold" those with an RSI from 0
    to 30, "Large Cap" those with a market cap of at least 10^10; each also
    keeps every record without the value.  Right after a preset is
    chosen its button is the active one, and none of the other two is. *)
Theorem presets_select (stock : Stock.t) :
  (keeps (presetFilters Overbought) stock = true
   <-> match Stock.RSI stock with
       | Some r => Qc_of_Z 70 ≤ r ≤ Qc_of_Z 100
       | None => True
       end)
  /\ (keeps (presetFilters Oversold) stock = true
      <-> match Stock.RSI stock with
          | Some r => Qc_of_Z 0 ≤ r ≤ Qc_of_Z 30
          | None => True
          end)
  /\ (keeps (presetFilters LargeCap) stock = true
      <-> match Stock.market_cap_basic stock with
          | Some m => Qc_of_Z 10000000000 ≤ m
          | None => True
          end)
  /\ (forall preset other,
        presetActive other (presetFilters preset) = true <-> other = preset).
Proof.
  split; [| split; [| split]].
  - change (presetFilters Overbought)
      with (withBounds Rsi (Some (Qc_of_Z 70)) (Some (Qc_of_Z 100)) defaultFilters).
    rewrite keeps_factor.
    change (withBounds Rsi None None defaultFilters) with defaultFilters.
    rewrite keeps_default. unfold attrOk, scaled. simpl.
    destruct (Stock.RSI stock) as [r |]; simpl; [| done].
    by rewrite andb_true_iff, !geb_true.
  - change (presetFilters Oversold)
      with (withBounds Rsi (Some (Qc_of_Z 0)) (Some (Qc_of_Z 30)) defaultFilters).
    rewrite keeps_factor.
    change (withBounds Rsi None None defaultFilters) with defaultFilters.
    rewrite keeps_default. unfold attrOk, scaled. simpl.
    destruct (Stock.RSI stock) as [r |]; simpl; [| done].
    by rewrite andb_true_iff, !geb_true.
  - change (presetFilters LargeCap)
      with (withBounds MarketCap (Some (Qc_of_Z 10)) None defaultFilters).
    rewrite keeps_factor.
    change (withBounds MarketCap None None defaultFilters) with defaultFilters.
    rewrite keeps_default. unfold attrOk, scaled. simpl.
    destruct (Stock.market_cap_basic stock) as [m |]; simpl; [| done].
    by rewrite ten_billion, andb_true_r, geb_true.
  - intros preset other. destruct preset, other; vm_compute; split; done.
Qed.

(** ** The filter panel: narrowing a result *)

(** X11. Filtering an already filtered list under criteria that only add
    constraints gives the same list as filtering the data from scratch, and
    that list is a subsequence of the earlier result. *)
Theorem narrowing_a_result
    (data : list Stock.t) (criteria1 criteria2 : FilterCriteria.t) :
  stricter criteria1 criteria2 ->
  applyFilters (applyFilters data criteria1) criteria2 = applyFilters data criteria2
  /\ sublist (applyFilters data criteria2) (applyFilters data criteria1).
Proof.
  intros Hs.
  assert (Heq : applyFilters (applyFilters data criteria1) criteria2
                = applyFilters data criteria2).
  { unfold applyFilters. induction data as [| stock data IH]; [done |].
    cbn [List.filter].
    destruct (keeps criteria2 stock) eqn:H2.
    - rewrite (stricter_keeps _ _ _ Hs H2). cbn [List.filter].
      by rewrite H2, IH.
    - destruct (keeps criteria1 stock); [| done].
      cbn [List.filter]. by rewrite H2. }
  split; [done |].
  rewrite <- Heq. apply filter_sublist.
Qed.

Lemma narrowing_a_result_witness :
  let criteria1 := FilterCriteria.spread defaultFilters FilterCriteria.Ksector "Tech" in
  let criteria2 :=
    FilterCriteria.spread criteria1 FilterCriteria.KrsiMin (Some (Qc_of_Z 70)) in
  stricter criteria1 criteria2
  /\ applyFilters (applyFilters [recordA; recordB; recordC] criteria1) criteria2
     = applyFilters [recordA; recordB; recordC] criteria2.
Proof.
  assert (Hs : stricter
                 (FilterCriteria.spread defaultFilters FilterCriteria.Ksector "Tech")
                 (FilterCriteria.spread
                    (FilterCriteria.spread defaultFilters FilterCriteria.Ksector "Tech")
                    FilterCriteria.KrsiMin (Some (Qc_of_Z 70)))).
  { unfold stricter, addsCategorical, addsBound; simpl.
    repeat split; first [by left | by right]. }
  split; [exact Hs |].
  exact (proj1 (narrowing_a_result [recordA; recordB; recordC] _ _ Hs)).
Defined.

(** ** The rating classifier *)

(** X12. The rating label never decreases when the score increases. *)
Theorem rating_label_is_monotone (a b : Qc) (la lb : TechnicalRating) :
  a ≤ b ->
  getRatingLabel (Some a) = Some la ->
  getRatingLabel (Some b) = Some lb ->
  (ratingRank la <= ratingRank lb)%nat.
Proof.
  intros Hab Ha Hb. unfold getRatingLabel, geb in *.
  repeat case_bool_decide;
    injection Ha as <-; injection Hb as <-; simpl; try lia;
    exfalso; qc_order.
Qed.

Lemma rating_label_is_monotone_witness :
  dec (-0.3) ≤ dec 0.2
  /\ getRatingLabel (Some (dec (-0.3))) = Some Sell
  /\ getRatingLabel (Some (dec 0.2)) = Some Buy
  /\ (ratingRank Sell <= ratingRank Buy)%nat.
Proof.
  assert (H1 : dec (-0.3) ≤ dec 0.2) by (by vm_compute).
  assert (H2 : getRatingLabel (Some (dec (-0.3))) = Some Sell)
    by (vm_compute; reflexivity).
  assert (H3 : getRatingLabel (Some (dec 0.2)) = Some Buy)
    by (vm_compute; reflexivity).
  split; [exact H1 |].
  split; [exact H2 |].
  split; [exact H3 |].
  exact (rating_label_is_monotone _ _ _ _ H1 H2 H3).
Defined.

(** ** The range shown under the table *)

(** X13. In "Showing [from] to [to] of [N]" the range holds at most one
    page and ends within the rows; it is a proper range ([from <= to])
    exactly when the page starts before the last row, so for an empty
    result on the first page the text reads "1 to 0 of 0". *)
Theorem showing_range
    (pageIndex pageSize N : Z) :
  (0 <= pageIndex)%Z -> (0 < pageSize)%Z -> (0 <= N)%Z ->
  (showingTo pageIndex pageSize N <= N)%Z
  /\ (showingTo pageIndex pageSize N - showingFrom pageIndex pageSize + 1
      <= pageSize)%Z
  /\ ((showingFrom pageIndex pageSize <= showingTo pageIndex pageSize N)%Z
      <-> (pageIndex * pageSize < N)%Z)
  /\ (N = 0%Z -> pageIndex = 0%Z ->
      showingFrom pageIndex pageSize = 1%Z
      /\ showingTo pageIndex pageSize N = 0%Z).
Proof.
  intros HP HS HN. unfold showingFrom, showingTo.
  repeat split; try lia; try nia.
Qed.

Lemma showing_range_witness :
  (0 <= 0)%Z /\ (0 < 25)%Z /\ (0 <= 0)%Z
  /\ showingFrom 0 25 = 1%Z /\ showingTo 0 25 0 = 0%Z.
Proof.
  split; [lia | split; [lia | split; [lia |]]].
  apply (showing_range 0 25 0); lia.
Defined.

(** ** The ticker of a symbol *)

Lemma splitOn_no_colon (s : string) :
  hasColon s = false -> splitOn ":"%char s = [s].
Proof.
  induction s as [| c rest IH]; [done |].
  simpl. destruct (Ascii.eqb c ":"%char); [done |].
  simpl. intros H. by rewrite (IH H).
Qed.

Lemma splitOn_colon (s : string) :
  hasColon s = true ->
  exists piece0 piece1 pieces, splitOn ":"%char s = piece0 :: piece1 :: pieces.
Proof.
  induction s as [| c rest IH]; [done |].
  simpl. destruct (Ascii.eqb c ":"%char); simpl.
  - intros _. destruct rest as [| c' rest']; [by eexists _, _, _ |].
    destruct (splitOn ":"%char (String c' rest')) as [| p ps] eqn:Hsplit.
    + simpl in Hsplit. destruct (Ascii.eqb c' ":"%char); [done |].
      by destruct (splitOn ":"%char rest').
    + by eexists _, _, _.
  - intros H. destruct (IH H) as (p0 & p1 & ps & ->). by eexists _, _, _.
Qed.

Lemma splitOn_pieces (s : string) :
  Forall (fun piece => hasColon piece = false) (splitOn ":"%char s).
Proof.
  induction s as [| c rest IH]; [by repeat constructor |].
  simpl. destruct (Ascii.eqb c ":"%char) eqn:Hc.
  - by constructor.
  - destruct (splitOn ":"%char rest) as [| piece pieces].
    + repeat constructor. simpl. by rewrite Hc.
    + inversion IH as [| ? ? Hp Hps]; subst.
      constructor; [simpl; by rewrite Hc, Hp | done].
Qed.

Lemma splitOn_prefix (prefix rest : string) :
  hasColon prefix = false ->
  splitOn ":"%char (String.append prefix (String ":"%char rest))
  = prefix :: splitOn ":"%char rest.
Proof.
  induction prefix as [| c prefix IH]; [done |].
  simpl. destruct (Ascii.eqb c ":"%char); [done |].
  simpl. intros H. by rewrite (IH H).
Qed.

(** X14. The ticker shown for a symbol never has a colon in it: it is the
    symbol itself when that has none, and otherwise the piece between the
    first colon and the next. *)
Theorem ticker_has_no_colon (symbol : string) :
  hasColon (extractTicker symbol) = false.
Proof.
  unfold extractTicker.
  destruct (hasColon symbol) eqn:Hc.
  - destruct (splitOn_colon symbol Hc) as (p0 & p1 & ps & Hsplit).
    pose proof (splitOn_pieces symbol) as Hall. rewrite Hsplit in *.
    inversion Hall as [| ? ? _ Hrest]; subst.
    by inversion Hrest.
  - by rewrite (splitOn_no_colon symbol Hc).
Qed.

(** X15. For an exchange prefix and a ticker without colons,
    [extractTicker] of "prefix:ticker" is the ticker, also when it is empty
    and also when more follows after a further colon; a symbol without
    colon is returned as it is. *)
Theorem ticker_of_prefixed_symbol (prefix ticker more : string) :
  hasColon prefix = false ->
  hasColon ticker = false ->
  extractTicker (String.append prefix (String ":"%char ticker)) = ticker
  /\ extractTicker
       (String.append prefix
          (String ":"%char (String.append ticker (String ":"%char more))))
     = ticker
  /\ extractTicker ticker = ticker.
Proof.
  intros Hp Ht. unfold extractTicker. split; [| split].
  - by rewrite (splitOn_prefix _ _ Hp), (splitOn_no_colon _ Ht).
  - by rewrite (splitOn_prefix _ _ Hp), (splitOn_prefix _ _ Ht).
  - by rewrite (splitOn_no_colon _ Ht).
Qed.

Lemma ticker_of_prefixed_symbol_witness :
  hasColon "ASX" = false
  /\ hasColon "CBA" = false
  /\ extractTicker "ASX:CBA" = "CBA".
Proof.
  split; [reflexivity | split; [reflexivity |]].
  exact (proj1 (ticker_of_prefixed_symbol "ASX" "CBA" "" eq_refl eq_refl)).
Defined.

Example splitOn_examples :
  splitOn ":"%char "ASX:CBA" = ["ASX"; "CBA"]
  /\ splitOn ":"%char "A:B:C" = ["A"; "B"; "C"]
  /\ splitOn ":"%char "ASX:" = ["ASX"; ""]
  /\ splitOn ":"%char "" = [""]
  /\ extractTicker "ASX:" = ""
  /\ extractTicker "A:B:C" = "B".
Proof. repeat split; reflexivity. Qed.

(** ** Large numbers *)

(** Order reasoning with integer constants. *)
Ltac qc_arith :=
  repeat match goal with
         | H : ¬ (_ ≤ _)%Qc |- _ => apply Qclt_nge in H
         | H : ¬ (_ < _)%Qc |- _ => apply Qcle_ngt in H
         | |- ¬ (_ ≤ _)%Qc => apply Qclt_nge
         | |- ¬ (_ < _)%Qc => apply Qcle_ngt
         end;
  unfold Qcle, Qclt, dec in *; cbn -[Qle Qlt Qred] in *;
  rewrite ?Qred_correct in *; unfold inject_Z in *; lra.

Lemma abs_nonneg (value : Qc) : 0 ≤ abs value.
Proof.
  unfold abs, ltb. case_bool_decide as H; qc_order.
Qed.

Lemma div_times (a d : Qc) : 0 < d -> a / d * d = a.
Proof.
  intros Hd. rewrite Qcmult_comm. apply Qcmult_div_r.
  intros ->. by apply Qclt_not_eq in Hd.
Qed.

Lemma div_ge (a d lo : Qc) : 0 < d -> lo ≤ a / d <-> lo * d ≤ a.
Proof.
  intros Hd. rewrite (Qcmult_le_mono_pos_r lo (a / d) d Hd).
  by rewrite div_times.
Qed.

Lemma div_lt (a d hi : Qc) : 0 < d -> a / d < hi <-> a < hi * d.
Proof.
  intros Hd. rewrite (Qcmult_lt_mono_pos_r (a / d) hi d Hd).
  by rewrite div_times.
Qed.

Lemma append_empty_r (s : string) : String.append s "" = s.
Proof.
  induction s as [| c s IH]; [done |].
  change (String c (String.append s "") = String c s). by rewrite IH.
Qed.

(** X16. [formatLargeNumber] renders the sign, the dollar sign, the
    absolute value divided by the unit it picks, and the suffix of the
    unit.  From a thousand up to (not including) 10^15 the exact quotient
    that is handed to [toFixed(2)] is at least 1 and below 1000, and the
    suffix is K, M, B or T.  Nothing is said of the digits: [toFixed(2)]
    rounds the quotient to two decimals, so that the text can read
    1000.00.  Below a thousand the unit is 1, without suffix. *)
Theorem large_number_unit (value : Qc) :
  let absValue := abs value in
  let unit := largeUnit absValue in
  (forall toFixed2,
     formatLargeNumber toFixed2 (Some value)
     = String.append (if ltb value 0 then "-" else "")
         (String.append "$"
            (String.append (toFixed2 (absValue / fst unit)) (snd unit))))
  /\ (Qc_of_Z 1000 ≤ absValue -> absValue < Qc_of_Z 1000000000000000 ->
      1 ≤ absValue / fst unit < Qc_of_Z 1000
      /\ snd unit ∈ ["K"; "M"; "B"; "T"])
  /\ (absValue < Qc_of_Z 1000 -> unit = (1, "")).
Proof.
  intros absValue unit. subst unit. unfold formatLargeNumber, largeUnit.
  fold absValue. generalize absValue. clear absValue. intros a.
  unfold geb. repeat case_bool_decide; simpl.
  all: split;
    [intros toFixed2; by rewrite ?(right_id 1 Qcdiv), ?append_empty_r |].
  all: split; [| intros Hlt; try done; exfalso; qc_arith].
  all: intros Hlo Hhi.
  all: try (exfalso; qc_arith).
  all: split; [| set_solver].
  all: rewrite div_ge, div_lt by done.
  all: split; qc_arith.
Qed.

(** X17. A negative amount is rendered as the minus sign followed by the
    rendering of the positive amount. *)
Theorem large_number_sign (toFixed2 : Qc -> string) (value : Qc) :
  0 < value ->
  formatLargeNumber toFixed2 (Some (- value))
  = String.append "-" (formatLargeNumber toFixed2 (Some value)).
Proof.
  intros Hpos.
  assert (Hneg : ltb (- value) 0 = true).
  { apply ltb_true. qc_arith. }
  assert (Hnn : ltb value 0 = false).
  { unfold ltb. apply bool_decide_eq_false_2. qc_arith. }
  unfold formatLargeNumber, abs. rewrite Hneg, Hnn, Qcopp_involutive.
  repeat match goal with
         | |- context [geb ?x ?y] => destruct (geb x y)
         end; reflexivity.
Qed.

Lemma large_number_sign_witness :
  0 < Qc_of_Z 1500
  /\ formatLargeNumber (fun _ => "1.50") (Some (- Qc_of_Z 1500)) = "-$1.50K".
Proof.
  assert (Hpos : 0 < Qc_of_Z 1500) by (by vm_compute).
  split; [exact Hpos |].
  rewrite (large_number_sign (fun _ => "1.50") (Qc_of_Z 1500) Hpos).
  reflexivity.
Defined.

(** ** The visibility map *)

Lemma initialVisibility_fold
    (cols : list ColumnDef.t) (acc : VisibilityState) (k : string) :
  foldl
    (fun visibility col =>
       match colId col with
       | Some c =>
           if String.eqb c "" then visibility
           else <[c := bool_decide (c ∈ defaultVisibleColumns)]> visibility
       | None => visibility
       end)
    acc cols !! k
  = if bool_decide (k ∈ columnIds cols /\ k <> "")
    then Some (bool_decide (k ∈ defaultVisibleColumns))
    else acc !! k.
Proof.
  revert acc. induction cols as [| col cols IH]; intros acc.
  - cbn [foldl]. rewrite bool_decide_eq_false_2; [done |].
    intros [Hk _]. by apply elem_of_nil in Hk.
  - cbn [foldl]. rewrite IH. unfold columnIds.
    change (omap colId (col :: cols))
      with (match colId col with
            | Some c => c :: omap colId cols
            | None => omap colId cols
            end).
    destruct (colId col) as [c |]; [| done].
    destruct (String.eqb_spec c "") as [-> | Hc].
    + rewrite (bool_decide_ext (k ∈ "" :: omap colId cols /\ k <> "")
                 (k ∈ omap colId cols /\ k <> "")); [done |].
      rewrite elem_of_cons.
      split; [intros [[-> | ?] ?]; done | intros [? ?]; by auto].
    + destruct (decide (k ∈ omap colId cols /\ k <> "")) as [Hin | Hnotin].
      * rewrite (bool_decide_eq_true_2 (k ∈ omap colId cols /\ k <> "") Hin).
        rewrite (bool_decide_eq_true_2 (k ∈ c :: omap colId cols /\ k <> ""));
          [done |].
        destruct Hin as [Hin Hk]. split; [apply elem_of_cons; by right | done].
      * rewrite (bool_decide_eq_false_2 (k ∈ omap colId cols /\ k <> "") Hnotin).
        destruct (decide (c = k)) as [<- | Hne].
        -- rewrite (bool_decide_eq_true_2 (c ∈ c :: omap colId cols /\ c <> ""));
             [apply lookup_insert_eq |].
           split; [apply elem_of_cons; by left | done].
        -- rewrite (bool_decide_eq_false_2 (k ∈ c :: omap colId cols /\ k <> "")).
           ++ by apply lookup_insert_ne.
           ++ intros [Hk Hne']. apply elem_of_cons in Hk.
              destruct Hk as [-> | Hk]; [done |]. by apply Hnotin.
Qed.


Example initial_visibility_empty_id :
  initialVisibility [ColumnDef.mk (Some "") (Some "name") None]
  = {[ "name" := true ]}
  /\ initialVisibility [ColumnDef.mk None (Some "") None] = ∅.
Proof. split; vm_compute; reflexivity. Qed.

#[local] Transparent allColumns.

Lemma getAllColumns_id (cols : list ColumnDef.t) (column : Column.t) :
  column ∈ getAllColumns cols -> Column.id column ∈ columnIds cols.
Proof.
  unfold getAllColumns, columnIds. intros Hin.
  apply list_elem_of_omap in Hin. destruct Hin as (def & Hdef & Hcol).
  apply list_elem_of_omap. exists def. split; [done |].
  destruct (colId def) as [i |]; simpl in Hcol; [| done].
  by injection Hcol as <-.
Qed.

Lemma allColumns_spec (column : Column.t) :
  column ∈ allColumns ->
  getCanHide column = true /\ Column.id column ∈ columnIds columns.
Proof.
  unfold allColumns. intros Hin.
  apply list_elem_of_In, filter_In in Hin. destruct Hin as [Hin Hhide].
  split; [done |]. by apply getAllColumns_id, list_elem_of_In.
Qed.

#[local] Opaque allColumns.

Lemma reaches_column (cols : list Column.t) (k : string) :
  reaches cols k = true -> exists column, column ∈ cols /\ Column.id column = k.
Proof.
  unfold reaches. intros H. apply existsb_exists in H.
  destruct H as (column & Hin & Hc). exists column.
  split; [by apply list_elem_of_In |].
  apply andb_true_iff in Hc. destruct Hc as [_ Hc]. by apply String.eqb_eq.
Qed.

Lemma getColumn_spec (columnId : string) :
  match getColumn columnId with
  | Some column => column ∈ allColumns /\ Column.id column = columnId
  | None => columnId ∉ (Column.id <$> allColumns)
  end.
Proof.
  unfold getColumn.
  destruct (List.find _ allColumns) as [column |] eqn:Hfind.
  - apply find_some in Hfind. destruct Hfind as [Hin Heq].
    split; [by apply list_elem_of_In | by apply String.eqb_eq].
  - intros Hin. apply list_elem_of_fmap in Hin.
    destruct Hin as (column & -> & Hin).
    apply list_elem_of_In in Hin.
    pose proof (find_none _ _ Hfind column Hin) as Hne. simpl in Hne.
    by rewrite String.eqb_refl in Hne.
Qed.

(** A checkbox writes the entry of its own column, and only when the
    column is one of the menu. *)
Lemma onCheckedChange_lookup
    (columnId : string) (checked : bool) (visibility : VisibilityState) (k : string) :
  onCheckedChange columnId checked visibility !! k
  = if bool_decide (columnId = k /\ columnId ∈ (Column.id <$> allColumns))
    then Some checked
    else visibility !! k.
Proof.
  unfold onCheckedChange. pose proof (getColumn_spec columnId) as Hspec.
  destruct (getColumn columnId) as [column |].
  - destruct Hspec as [Hin Hid].
    destruct (allColumns_spec column Hin) as [Hhide _].
    rewrite toggleVisibility_lookup, Hhide, Hid. simpl.
    destruct (String.eqb_spec columnId k) as [-> | Hne].
    + rewrite bool_decide_eq_true_2; [done |]. split; [done |].
      rewrite <- Hid. apply list_elem_of_fmap. by exists column.
    + rewrite bool_decide_eq_false_2; [done |]. by intros [? _].
  - rewrite bool_decide_eq_false_2; [done |]. by intros [_ ?].
Qed.

(** X19. In every state the menu can reach, the visibility map has an
    entry for exactly the columns of the registry: no action adds an entry
    for an unknown identifier or removes one. *)
Theorem visibility_map_keeps_its_keys (actions : list MenuAction) (k : string) :
  is_Some (visibilityAfter actions !! k) <-> k ∈ columnIds columns.
Proof.
  unfold visibilityAfter.
  assert (Hinit : is_Some (initialVisibility columns !! k) <-> k ∈ columnIds columns).
  { assert (Hne : "" ∉ columnIds columns)
      by (apply (bool_decide_eq_true_1 _); vm_compute; reflexivity).
    unfold initialVisibility. rewrite initialVisibility_fold, lookup_empty.
    case_bool_decide as Hk.
    - destruct Hk as [Hk _]. split; [done | intros _; by eexists].
    - split; [by intros [? ?] | intros Hin].
      exfalso. apply Hk. split; [done |]. by intros ->. }
  revert Hinit. generalize (initialVisibility columns).
  induction actions as [| a actions IH]; intros visibility Hvis; [done |].
  cbn [foldl]. apply IH.
  destruct a as [| | columnId checked]; unfold menuStep.
  - unfold clickAll, toggleAll. rewrite toggle_fold_lookup.
    destruct (reaches allColumns k) eqn:Hr; [| done].
    destruct (reaches_column _ _ Hr) as (column & Hin & <-).
    split; [intros _; by apply allColumns_spec | by eauto].
  - unfold clickNone, toggleAll. rewrite toggle_fold_lookup.
    destruct (reaches allColumns k) eqn:Hr; [| done].
    destruct (reaches_column _ _ Hr) as (column & Hin & <-).
    split; [intros _; by apply allColumns_spec | by eauto].
  - rewrite onCheckedChange_lookup. case_bool_decide as Hc; [| done].
    destruct Hc as [-> Hin]. apply list_elem_of_fmap in Hin.
    destruct Hin as (column & -> & Hin).
    split; [intros _; by apply allColumns_spec | by eauto].
Qed.

Lemma toggleAll_absorbs (value value' : bool) (visibility : VisibilityState) :
  toggleAll value (toggleAll value' visibility) = toggleAll value visibility.
Proof.
  apply map_eq. intros k. unfold toggleAll. rewrite !toggle_fold_lookup.
  by destruct (reaches allColumns k).
Qed.

(** X20. "All" and "None" overwrite each other: after either button the
    map is the same whatever the other button did before, and pressing a
    button twice is pressing it once. *)
Theorem bulk_buttons_compose (visibility : VisibilityState) :
  clickAll (clickNone visibility) = clickAll visibility
  /\ clickNone (clickAll visibility) = clickNone visibility
  /\ clickAll (clickAll visibility) = clickAll visibility
  /\ clickNone (clickNone visibility) = clickNone visibility.
Proof. unfold clickAll, clickNone. repeat split; apply toggleAll_absorbs. Qed.

(** X21. A checkbox writes the entry of its own column and no other; for
    an identifier that is not a column of the menu nothing changes; of two
    clicks on the same checkbox the last one wins; and a bulk button after
    a checkbox undoes the checkbox. *)
Theorem checkbox_writes_its_own_entry
    (columnId : string) (checked : bool) (visibility : VisibilityState) :
  (forall k,
     onCheckedChange columnId checked visibility !! k
     = if bool_decide (columnId = k /\ columnId ∈ (Column.id <$> allColumns))
       then Some checked
       else visibility !! k)
  /\ (columnId ∉ (Column.id <$> allColumns) ->
      onCheckedChange columnId checked visibility = visibility)
  /\ (forall checked',
        onCheckedChange columnId checked
          (onCheckedChange columnId checked' visibility)
        = onCheckedChange columnId checked visibility)
  /\ (forall value,
        toggleAll value (onCheckedChange columnId checked visibility)
        = toggleAll value visibility).
Proof.
  split; [| split; [| split]].
  - intros k. apply onCheckedChange_lookup.
  - intros Hnot. apply map_eq. intros k. rewrite onCheckedChange_lookup.
    rewrite bool_decide_eq_false_2; [done |]. by intros [_ ?].
  - intros checked'. apply map_eq. intros k. rewrite !onCheckedChange_lookup.
    by case_bool_decide.
  - intros value. apply map_eq. intros k. unfold toggleAll.
    rewrite !toggle_fold_lookup, onCheckedChange_lookup.
    destruct (reaches allColumns k) eqn:Hr; [done |].
    case_bool_decide as Hc; [| done].
    destruct Hc as [-> Hin]. apply list_elem_of_fmap in Hin.
    destruct Hin as (column & -> & Hin).
    destruct (allColumns_spec column Hin) as [Hhide _].
    pose proof (allColumns_without_ticker column Hin) as Hne.
    assert (reaches allColumns (Column.id column) = true) as Hr'.
    { unfold reaches. apply existsb_exists. exists column.
      split; [by apply list_elem_of_In |].
      apply String.eqb_neq in Hne. by rewrite Hne, Hhide, String.eqb_refl. }
    congruence.
Qed.

(** X22. The menu has exactly one checkbox for every column that can be
    hidden and none for the ticker column: the column groups list every
    hideable column once. *)
Theorem menu_has_one_checkbox_per_hideable_column :
  Permutation (Column.id <$> menuItems) (Column.id <$> allColumns)
  /\ NoDup (Column.id <$> menuItems)
  /\ ("ticker" ∉ (Column.id <$> menuItems))
  /\ "ticker" ∈ flat_map ColumnGroup.columns columnGroups.
Proof.
  assert (Hnd1 : NoDup (Column.id <$> menuItems))
    by (apply (bool_decide_eq_true_1 _); vm_compute; reflexivity).
  assert (Hnd2 : NoDup (Column.id <$> allColumns))
    by (apply (bool_decide_eq_true_1 _); vm_compute; reflexivity).
  assert (H12 : Forall (fun x => x ∈ (Column.id <$> allColumns)) (Column.id <$> menuItems))
    by (apply (bool_decide_eq_true_1 _); vm_compute; reflexivity).
  assert (H21 : Forall (fun x => x ∈ (Column.id <$> menuItems)) (Column.id <$> allColumns))
    by (apply (bool_decide_eq_true_1 _); vm_compute; reflexivity).
  rewrite Forall_forall in H12, H21.
  split; [| split; [done | split]].
  - apply NoDup_Permutation; [done | done |]. intros x. split; [apply H12 | apply H21].
  - apply (bool_decide_eq_true_1 _). vm_compute. reflexivity.
  - apply (bool_decide_eq_true_1 _). vm_compute. reflexivity.
Qed.
